(** * islambot: the scheduling and delivery core

    A shallow embedding of [src/telegram_bot.py], [src/scheduler.py] and the
    supervisor loop of [src/main.py], and the properties of the
    specification checked against it.

    Python text is a list of Unicode code points, so that [len] and slicing
    count what Python counts.  Effects (logging, sleeping, calls to the
    Telegram client and to the content generator, the job list of the
    [schedule] module) are threaded through a state-and-exception monad
    whose state records every effect in order. *)

From Stdlib Require Import List String Ascii NArith ZArith Arith Lia Bool Sorted.
From Stdlib Require Import Decimal DecimalString.
From Equations Require Import Equations.
Import ListNotations.

Set Implicit Arguments.

(* ===================================================================== *)
(** * Python values and effects                                           *)
(* ===================================================================== *)

Module Py.

(** A Python [str]: its code points. *)
Definition str := list N.

(** Source literals are written as UTF-8 strings and decoded once. *)
Fixpoint utf8_decode (bs : list N) : str :=
  match bs with
  | [] => []
  | b :: r =>
      if (b <? 128)%N then b :: utf8_decode r
      else if (b <? 224)%N then
        match r with
        | c1 :: r' => ((b - 192) * 64 + (c1 - 128))%N :: utf8_decode r'
        | _ => []
        end
      else if (b <? 240)%N then
        match r with
        | c1 :: c2 :: r' =>
            ((b - 224) * 4096 + (c1 - 128) * 64 + (c2 - 128))%N
              :: utf8_decode r'
        | _ => []
        end
      else
        match r with
        | c1 :: c2 :: c3 :: r' =>
            ((b - 240) * 262144 + (c1 - 128) * 4096
             + (c2 - 128) * 64 + (c3 - 128))%N :: utf8_decode r'
        | _ => []
        end
  end.

Definition lit (s : string) : str :=
  utf8_decode (map N_of_ascii (list_ascii_of_string s)).

(** The line feed of ["\n"]. *)
Definition nl : str := [10%N].

(** [str(n)] for a non-negative integer. *)
Definition str_of_nat (n : nat) : str :=
  lit (NilEmpty.string_of_uint (Nat.to_uint n)).

(** [a == b] on text. *)
Fixpoint str_eqb (a b : str) : bool :=
  match a, b with
  | [], [] => true
  | x :: a', y :: b' => (x =? y)%N && str_eqb a' b'
  | _, _ => false
  end.

(** [hay.startswith(needle)]. *)
Fixpoint startswith (needle hay : str) : bool :=
  match needle, hay with
  | [], _ => true
  | n :: ns, h :: hs => (n =? h)%N && startswith ns hs
  | _ :: _, [] => false
  end.

(** [needle in hay]. *)
Fixpoint contains (needle hay : str) : bool :=
  startswith needle hay
  || match hay with
     | [] => false
     | _ :: hs => contains needle hs
     end.

(** [bool(s)] for text: only the empty string is falsy. *)
Definition truthy (s : str) : bool :=
  match s with [] => false | _ :: _ => true end.

(** A [dict] with insertion order, as [.items()] yields it. *)
Definition dict (V : Type) := list (str * V).

(** [d.get(k, default)]. *)
Fixpoint get {V} (d : dict V) (k : str) (default : V) : V :=
  match d with
  | [] => default
  | (k', v) :: d' => if str_eqb k' k then v else get d' k default
  end.

(** [k in d]. *)
Fixpoint has_key {V} (d : dict V) (k : str) : bool :=
  match d with
  | [] => false
  | (k', _) :: d' => str_eqb k' k || has_key d' k
  end.

(** Logging levels of the [logging] module that the code uses. *)
Inductive Level := DEBUG | INFO | WARNING | ERROR.

(** The exceptions the code distinguishes; each carries its [str(e)].
    Both are subclasses of [Exception]. *)
Inductive Exn :=
| ApiTelegramException (text : str)
| Exception (text : str).

Definition exn_str (e : Exn) : str :=
  match e with ApiTelegramException s => s | Exception s => s end.

(** A job of the [schedule] module: the content type bound by [do], the
    time of day given to [at] and the next run, in seconds. *)
Record Job := mkJob {
  job_id : nat;
  job_content_type : str;
  job_at : Z;
  next_run : Z
}.

(** What the program does to the outside world, in order. *)
Inductive Event :=
| Log (lvl : Level) (msg : str)
| Sleep (secs : nat)
| ApiSend (chat_id text : str)
| Generate (content_type : str)
| Call (what : str).

(** The mutable state: the effects so far, the module-level job list
    [schedule.jobs], and [self.scheduled_jobs] of the one
    [ContentScheduler]. *)
Record World := mkWorld {
  trace : list Event;
  jobs : list Job;
  scheduled_jobs : list (str * str * nat);
  next_id : nat
}.

Definition emit (e : Event) (w : World) : World :=
  mkWorld (trace w ++ [e]) (jobs w) (scheduled_jobs w) (next_id w).

(** The result of a call: a value or a raised exception. *)
Inductive Res (A : Type) :=
| Ret (a : A)
| Raise (e : Exn).
Arguments Raise {A} e.

Definition M (A : Type) := World -> Res A * World.

Definition ret {A} (a : A) : M A := fun w => (Ret a, w).

Definition raise {A} (e : Exn) : M A := fun w => (Raise e, w).

Definition bind {A B} (m : M A) (k : A -> M B) : M B :=
  fun w =>
    match m w with
    | (Ret a, w') => k a w'
    | (Raise e, w') => (Raise e, w')
    end.

(** [try: body / except Exception as e: handler(e)]. *)
Definition try_except {A} (body : M A) (handler : Exn -> M A) : M A :=
  fun w =>
    match body w with
    | (Ret a, w') => (Ret a, w')
    | (Raise e, w') => handler e w'
    end.

Definition log (lvl : Level) (msg : str) : M unit :=
  fun w => (Ret tt, emit (Log lvl msg) w).

Definition sleep (secs : nat) : M unit :=
  fun w => (Ret tt, emit (Sleep secs) w).

Definition when (b : bool) (m : M unit) : M unit :=
  if b then m else ret tt.

(** [for x in xs: body(x)]. *)
Fixpoint for_each {A} (xs : list A) (body : A -> M unit) : M unit :=
  match xs with
  | [] => ret tt
  | x :: xs' => bind (body x) (fun _ => for_each xs' body)
  end.

Declare Scope py_scope.
Delimit Scope py_scope with py.
Notation "x <- m ;; k" := (bind m (fun x => k))
  (at level 61, m at next level, right associativity) : py_scope.
Notation "m ;; k" := (bind m (fun _ => k))
  (at level 61, right associativity) : py_scope.

(** [sorted(xs, key=key)]: stable, by insertion. *)
Fixpoint insert_by {A} (key : A -> Z) (x : A) (sorted : list A) : list A :=
  match sorted with
  | [] => [x]
  | y :: rest =>
      if (key x <=? key y)%Z then x :: y :: rest
      else y :: insert_by key x rest
  end.

Definition sort_by {A} (key : A -> Z) (xs : list A) : list A :=
  fold_right (insert_by key) [] xs.

(** [min(x :: xs, key=key)]: the first of the smallest. *)
Fixpoint min_by {A} (key : A -> Z) (x : A) (xs : list A) : A :=
  match xs with
  | [] => x
  | y :: ys => min_by key (if (key y <? key x)%Z then y else x) ys
  end.

(** ASCII case folding: what [str.lower] does to ASCII text. *)
Definition ascii_lower (s : str) : str :=
  map (fun c => if ((65 <=? c) && (c <=? 90))%N then (c + 32)%N else c) s.

End Py.

Import Py.
Open Scope py_scope.

(* ===================================================================== *)
(** * [src/telegram_bot.py]: class [TelegramBot]                          *)
(* ===================================================================== *)

Module TelegramBot.

(** The fields set by [__init__] (the [telebot] client is the oracle
    [bot_send_message] below). *)
Record t := mk {
  channel_id : str;
  retry_attempts : nat;
  retry_delay : nat
}.

Definition __init__ (channel : str) : t := mk channel 3 60.

(** The branches of the [if]/[elif] chain on [error_msg], in the order
    the code tests them. *)
Inductive ErrorClass := RateLimited | TimedOut | Critical | Other.

Definition classify (error_msg : str) : ErrorClass :=
  if contains (lit "too many requests") error_msg then RateLimited
  else if contains (lit "timeout") error_msg then TimedOut
  else if contains (lit "chat not found") error_msg
          || contains (lit "bot was blocked") error_msg then Critical
  else Other.

(** The size guard at the head of [send_message]. *)
Definition oversized (message : str) : bool := 4096 <? List.length message.

Definition fit (message : str) : str :=
  if oversized message then firstn 4090 message ++ lit "..." else message.

Definition emoji_map : dict str :=
  [ (lit "morning_azkar", lit "🌅");
    (lit "evening_azkar", lit "🌙");
    (lit "quran_verse", lit "📖");
    (lit "daily_hadith", lit "📚");
    (lit "daily_dua", lit "🤲");
    (lit "daily_reminder", lit "💭") ].

Definition titles : dict str :=
  [ (lit "morning_azkar", lit "أذكار الصباح");
    (lit "evening_azkar", lit "أذكار المساء");
    (lit "quran_verse", lit "آية من القرآن الكريم");
    (lit "daily_hadith", lit "حديث شريف");
    (lit "daily_dua", lit "دعاء مستجاب");
    (lit "daily_reminder", lit "تذكرة إيمانية") ].

Definition _get_content_title (content_type : str) : str :=
  get titles content_type (lit "محتوى إسلامي").

Section Client.

(** [str.lower]. *)
Variable lower : str -> str.

(** [self.bot.send_message(chat_id=..., text=..., ...)] of the
    [telebot] client: whether it returns or raises, given everything
    that happened before the call. *)
Variable bot_send_message : list Event -> str -> str -> Res unit.

(** [self.bot.get_me()] (the bot's user name) and
    [self.bot.get_chat(chat_id)] (the chat's title, when it has one). *)
Variable bot_get_me : list Event -> Res str.
Variable bot_get_chat : list Event -> str -> Res (option str).

Variable self : t.

Definition get_me : M str :=
  fun w => (bot_get_me (trace w), emit (Call (lit "bot.get_me")) w).

Definition get_chat : M (option str) :=
  fun w =>
    (bot_get_chat (trace w) (channel_id self),
     emit (Call (lit "bot.get_chat")) w).

(** [test_connection(self)].  The inner [try] catches
    [ApiTelegramException] only. *)
Definition test_connection : M bool :=
  try_except
    (log INFO (lit "🔍 Testing Telegram bot connection...") ;;
     username <- get_me ;;
     log INFO (lit "✅ Connected to Telegram bot: @" ++ username) ;;
     try_except
       (title <- get_chat ;;
        log INFO (lit "✅ Channel access confirmed: "
                  ++ match title with Some t => t | None => channel_id self end) ;;
        ret true)
       (fun e =>
          match e with
          | ApiTelegramException text =>
              (if contains (lit "chat not found") (lower text) then
                 log ERROR (lit "❌ Channel " ++ channel_id self ++ lit " not found")
               else if contains (lit "bot was blocked") (lower text) then
                 log ERROR (lit "❌ Bot was blocked by the channel " ++ channel_id self)
               else
                 log ERROR (lit "❌ Cannot access channel " ++ channel_id self
                            ++ lit ": " ++ text)) ;;
              log ERROR (lit "💡 Make sure the bot is added as an administrator to the channel") ;;
              ret false
          | other => raise other
          end))
    (fun e =>
       match e with
       | ApiTelegramException text =>
           log ERROR (lit "❌ Telegram bot connection failed: " ++ text) ;;
           ret false
       | Exception text =>
           log ERROR (lit "❌ Unexpected error testing connection: " ++ text) ;;
           ret false
       end).

Definition api_send (text : str) : M unit :=
  fun w =>
    (bot_send_message (trace w) (channel_id self) text,
     emit (ApiSend (channel_id self) text) w).

(** [send_message(self, message, retry_count=0)].  The slice and the
    reassignment of [message] cannot raise, so they are computed ahead
    of the [try]; the handlers see the reassigned [message], as in the
    source. *)
Equations? send_message (message : str) (retry_count : nat) : M bool
  by wf (retry_attempts self - retry_count) lt :=
send_message message retry_count :=
  let long := oversized message in
  let message := fit message in
  try_except
    (log INFO (lit "📤 Sending message to " ++ channel_id self ++ lit "...") ;;
     when long (log WARNING (lit "⚠️ Message truncated to fit Telegram limit")) ;;
     api_send message ;;
     log INFO (lit "✅ Message sent successfully") ;;
     ret true)
    (fun e =>
       match e with
       | ApiTelegramException text =>
           match classify (lower text) with
           | RateLimited =>
               let wait_time := 60 in
               log WARNING (lit "⏳ Rate limited. Waiting "
                            ++ str_of_nat wait_time ++ lit " seconds...") ;;
               sleep wait_time ;;
               match lt_dec retry_count (retry_attempts self) with
               | left _ => send_message message (retry_count + 1)
               | right _ =>
                   log ERROR (lit "❌ Failed to send message after rate limit retries") ;;
                   ret false
               end
           | TimedOut =>
               log WARNING (lit "⏰ Request timed out: " ++ text) ;;
               match lt_dec retry_count (retry_attempts self) with
               | left _ =>
                   log INFO (lit "🔄 Retrying... Attempt "
                             ++ str_of_nat (retry_count + 1) ++ lit "/"
                             ++ str_of_nat (retry_attempts self)) ;;
                   sleep (retry_delay self) ;;
                   send_message message (retry_count + 1)
               | right _ =>
                   log ERROR (lit "❌ Failed to send message after timeout retries") ;;
                   ret false
               end
           | Critical =>
               log ERROR (lit "💀 Critical Telegram error - not retrying") ;;
               ret false
           | Other =>
               log ERROR (lit "❌ Telegram error while sending message: " ++ text) ;;
               match lt_dec retry_count (retry_attempts self) with
               | left _ =>
                   log INFO (lit "🔄 Retrying... Attempt "
                             ++ str_of_nat (retry_count + 1) ++ lit "/"
                             ++ str_of_nat (retry_attempts self)) ;;
                   sleep (retry_delay self) ;;
                   send_message message (retry_count + 1)
               | right _ =>
                   log ERROR (lit "❌ Failed to send message after all retries") ;;
                   ret false
               end
           end
       | Exception text =>
           log ERROR (lit "❌ Unexpected error while sending message: " ++ text) ;;
           ret false
       end).
Proof. all: lia. Qed.

(** [send_formatted_content(self, content_type, content)]; [content]
    is [None] or text. *)
Definition send_formatted_content (content_type : str) (content : option str)
  : M bool :=
  match content with
  | None | Some [] =>
      log ERROR (lit "❌ Cannot send empty content") ;;
      ret false
  | Some content =>
      let emoji := get emoji_map content_type (lit "🕌") in
      let formatted_message :=
        emoji ++ lit " <b>" ++ _get_content_title content_type
              ++ lit "</b>" ++ nl ++ nl ++ content in
      send_message formatted_message 0
  end.

(** [get_bot_info(self)]: only [ApiTelegramException] is caught. *)
Definition get_bot_info : M (option str) :=
  try_except
    (info <- get_me ;; ret (Some info))
    (fun e =>
       match e with
       | ApiTelegramException text =>
           log ERROR (lit "❌ Error getting bot info: " ++ text) ;;
           ret None
       | other => raise other
       end).

End Client.

End TelegramBot.

(* ===================================================================== *)
(** * The [schedule] package, as far as [src/scheduler.py] uses it        *)
(* ===================================================================== *)

Module Schedule.

(** One day, in seconds. *)
Definition day : Z := 86400.

(** Modelled from the spec: the [schedule] package is imported by
    [src/scheduler.py] and is not under [src/].  "[next_run] is always
    the earliest future timestamp matching [time_of_day] (today if not
    yet passed, else tomorrow)". *)
Definition first_run (now at_time : Z) : Z :=
  let midnight := (now - now mod day)%Z in
  if (now <? midnight + at_time)%Z then (midnight + at_time)%Z
  else (midnight + at_time + day)%Z.

(** Modelled from the spec: [schedule.clear()], the "clear" of the
    "clear-then-rebuild" of [setSchedule]. *)
Definition clear : M unit :=
  fun w => (Ret tt, mkWorld (trace w) [] (scheduled_jobs w) (next_id w)).

Section Parser.

(** [Job.at(time_str)]: the time of day in seconds, or the exception
    it raises on text it cannot parse. *)
Variable parse_at : str -> Res Z.

(** Modelled from the spec: [schedule.every().day.at(time_str).do(f,
    content_type)], the "rebuild" step for one entry: "for each entry
    computes initial [next_run]".  [at] raises before [do] registers
    anything. *)
Definition every_day_at_do (now : Z) (time_str content_type : str) : M Job :=
  fun w =>
    match parse_at time_str with
    | Raise e => (Raise e, w)
    | Ret at_time =>
        let job := mkJob (next_id w) content_type at_time (first_run now at_time) in
        (Ret job,
         mkWorld (trace w) (jobs w ++ [job]) (scheduled_jobs w) (S (next_id w)))
    end.

End Parser.

Definition due (now : Z) (job : Job) : bool := (next_run job <=? now)%Z.

(** Modelled from the spec: the [schedule] package is not under [src/].
    A job that has run is re-armed from the clock, not from its old
    [next_run]: it gets the first occurrence of its time of day after
    [now], which keeps the invariant of a Job, "[next_run] is always the
    earliest future timestamp matching [time_of_day] (today if not yet
    passed, else tomorrow)", and is why "a job cannot be double-fired
    within the same tick and will not drift relative to wall-clock
    time-of-day across days". *)
Definition rearm (now : Z) (job : Job) : Job :=
  mkJob (job_id job) (job_content_type job) (job_at job)
        (first_run now (job_at job)).

(** Modelled from the spec: [schedule.run_pending()] is not under
    [src/]; its selection and re-arming of jobs is [dueJobs(now)], which
    "returns, in ascending [next_run] order, every Job whose
    [next_run <= now]", each of them re-armed "before returning".  The
    first component is the returned sequence of content types, the second
    the registry after the call. *)
Definition dueJobs (now : Z) (registry : list Job) : list str * list Job :=
  (map job_content_type (sort_by next_run (filter (due now) registry)),
   map (fun job => if due now job then rearm now job else job) registry).

End Schedule.

(* ===================================================================== *)
(** * [src/scheduler.py]: class [ContentScheduler]                        *)
(* ===================================================================== *)

Module ContentScheduler.

(** [self.default_schedule], in the order [__init__] writes it. *)
Definition default_schedule : dict str :=
  [ (lit "morning_azkar", lit "06:00");
    (lit "quran_verse", lit "08:00");
    (lit "daily_hadith", lit "12:00");
    (lit "religious_post", lit "14:00");
    (lit "daily_reminder", lit "17:00");
    (lit "companion_story", lit "19:00");
    (lit "daily_dua", lit "20:00");
    (lit "evening_azkar", lit "21:00") ].

(** The dictionary [get_schedule_status] returns. *)
Record Status := mkStatus {
  total_jobs : nat;
  scheduled_content_types : nat;
  status_next_run : option str
}.

(** [custom_times or self.default_schedule]: [None] and the empty
    mapping are both falsy. *)
Definition schedule_times (custom_times : option (dict str)) : dict str :=
  match custom_times with
  | None | Some [] => default_schedule
  | Some times => times
  end.

(** The content type [_log_next_runs] finds for a job: the first entry
    of [self.scheduled_jobs] holding that very job. *)
Fixpoint content_type_of (entries : list (str * str * nat)) (job : Job) : str :=
  match entries with
  | [] => lit "unknown"
  | (ct, _, id) :: rest =>
      if id =? job_id job then ct else content_type_of rest job
  end.

(** [jobs_info[:3]] of [_log_next_runs]: the next three runs. *)
Definition upcoming (w : World) : list (Z * str) :=
  firstn 3
    (sort_by fst
       (map (fun job => (next_run job, content_type_of (scheduled_jobs w) job))
            (jobs w))).

Section Scheduler.

Variable lower : str -> str.
Variable bot_send_message : list Event -> str -> str -> Res unit.
Variable telegram_bot : TelegramBot.t.

(** [self.content_generator.generate_content(content_type)]: text,
    [None], or an exception. *)
Variable generate_content : list Event -> str -> Res (option str).

Variable parse_at : str -> Res Z.

(** [datetime.now()], in seconds, and [strftime]. *)
Variable datetime_now : list Event -> Z.
Variable strftime : str -> Z -> str.

Definition now : M Z := fun w => (Ret (datetime_now (trace w)), w).

Definition generate (content_type : str) : M (option str) :=
  fun w =>
    (generate_content (trace w) content_type, emit (Generate content_type) w).

Definition remember (entry : str * str * nat) : M unit :=
  fun w =>
    (Ret tt,
     mkWorld (trace w) (jobs w) (scheduled_jobs w ++ [entry]) (next_id w)).

Definition _log_next_runs : M unit :=
  log INFO (lit "🔜 Next scheduled posts:") ;;
  fun w =>
    for_each (upcoming w)
      (fun '(next_run, content_type) =>
         let formatted_time := strftime (lit "%Y-%m-%d %H:%M") next_run in
         log INFO (lit "   📍 " ++ content_type ++ lit ": " ++ formatted_time))
      w.

Definition _generate_and_send_content (content_type : str) : M unit :=
  try_except
    (t <- now ;;
     let current_time := strftime (lit "%H:%M") t in
     log INFO (lit "⏰ " ++ current_time ++ lit " - Executing scheduled task: "
               ++ content_type) ;;
     content <- generate content_type ;;
     match content with
     | Some (_ :: _) =>
         success <- TelegramBot.send_formatted_content
                      lower bot_send_message telegram_bot content_type content ;;
         if success : bool
         then log INFO (lit "✅ Successfully posted " ++ content_type)
         else log ERROR (lit "❌ Failed to post " ++ content_type)
     | _ =>
         log ERROR (lit "❌ No content generated for " ++ content_type)
     end)
    (fun e =>
       log ERROR (lit "❌ Error in scheduled task " ++ content_type
                  ++ lit ": " ++ exn_str e)).

(** The body of the [for] loop of [setup_schedule]. *)
Definition schedule_entry (entry : str * str) : M unit :=
  let '(content_type, time_str) := entry in
  try_except
    (t <- now ;;
     job <- Schedule.every_day_at_do parse_at t time_str content_type ;;
     remember (content_type, time_str, job_id job) ;;
     log INFO (lit "   📍 " ++ content_type ++ lit " scheduled at " ++ time_str))
    (fun e =>
       log ERROR (lit "❌ Failed to schedule " ++ content_type
                  ++ lit " at " ++ time_str ++ lit ": " ++ exn_str e)).

Definition setup_schedule (custom_times : option (dict str)) : M unit :=
  let schedule_times := schedule_times custom_times in
  log INFO (lit "📅 Setting up content schedule...") ;;
  Schedule.clear ;;
  for_each schedule_times schedule_entry ;;
  (fun w =>
     log INFO (lit "✅ Successfully scheduled "
               ++ str_of_nat (List.length (scheduled_jobs w))
               ++ lit " content types") w) ;;
  _log_next_runs.

(** Modelled from the spec: [schedule.run_pending()] is not under
    [src/]; it is the tick of the Scheduler Loop: "call [dueJobs(now)];
    for each due content_type in order, synchronously invoke
    generation then delivery before proceeding to the next due job".
    The job function bound by [setup_schedule] is
    [_generate_and_send_content]. *)
Definition run_pending : M unit :=
  t <- now ;;
  due <- (fun w =>
            let (due, registry) := Schedule.dueJobs t (jobs w) in
            (Ret due, mkWorld (trace w) registry (scheduled_jobs w) (next_id w))) ;;
  for_each due _generate_and_send_content.

Definition run_pending_tasks : M unit :=
  try_except run_pending
    (fun e => log ERROR (lit "❌ Error running scheduled tasks: " ++ exn_str e)).

Definition get_schedule_status (w : World) : Status :=
  mkStatus
    (List.length (jobs w))
    (List.length (scheduled_jobs w))
    match jobs w with
    | [] => None
    | job :: rest =>
        let next_job := min_by next_run job rest in
        Some (strftime (lit "%Y-%m-%d %H:%M:%S") (next_run next_job))
    end.

Definition run_content_now (content_type : str) : M bool :=
  if negb (has_key default_schedule content_type) then
    log ERROR (lit "❌ Unknown content type: " ++ content_type) ;;
    ret false
  else
    log INFO (lit "🚀 Manually triggering " ++ content_type) ;;
    _generate_and_send_content content_type ;;
    ret true.

(** The body of the [for] loop of [test_all_content_types]. *)
Definition test_content_type (content_type : str) : M unit :=
  log INFO (lit "Testing " ++ content_type ++ lit "...") ;;
  content <- generate content_type ;;
  match content with
  | Some ((_ :: _) as text) =>
      log INFO (lit "✅ " ++ content_type ++ lit ": Generated successfully") ;;
      log DEBUG (lit "Preview: " ++ firstn 100 text ++ lit "...")
  | _ =>
      log ERROR (lit "❌ " ++ content_type ++ lit ": Generation failed")
  end.

(** [test_all_content_types(self)]: no [try] around the generator. *)
Definition test_all_content_types : M unit :=
  log INFO (lit "🧪 Testing all content types...") ;;
  for_each (map fst default_schedule) test_content_type ;;
  log INFO (lit "🧪 Content type testing complete").

End Scheduler.

(** A value of the dictionary [get_schedule_status] returns, and the
    dictionary itself, with its keys in the order the code writes them. *)
Inductive Value := Int (n : nat) | Text (s : str) | NoneValue.

Definition as_dict (status : Status) : dict Value :=
  [ (lit "total_jobs", Int (total_jobs status));
    (lit "scheduled_content_types", Int (scheduled_content_types status));
    (lit "next_run",
     match status_next_run status with
     | Some formatted => Text formatted
     | None => NoneValue
     end) ].

End ContentScheduler.

(* ===================================================================== *)
(** * [src/bot_handler.py]: class [CombinedBotHandler]                    *)
(* ===================================================================== *)

Module CombinedBotHandler.

(** The text [show_schedule] builds; iterating over the status
    dictionary yields its keys. *)
Definition schedule_text (schedule_info : dict ContentScheduler.Value) : str :=
  let text := lit "📅 جدول النشر التلقائي:" ++ nl ++ nl in
  let text := text ++ lit "🌅 أذكار الصباح: 06:00" ++ nl in
  let text := text ++ lit "📖 آية قرآنية: 08:00" ++ nl in
  let text := text ++ lit "📚 حديث شريف: 12:00" ++ nl in
  let text := text ++ lit "💭 تذكرة إيمانية: 17:00" ++ nl in
  let text := text ++ lit "🤲 دعاء مستجاب: 20:00" ++ nl in
  let text := text ++ lit "🌙 أذكار المساء: 21:00" ++ nl ++ nl in
  let text := text ++ lit "📊 حالة الجدولة:" ++ nl in
  let text :=
    fold_left (fun text info => text ++ lit "• " ++ info ++ nl)
              (map fst schedule_info) text in
  text ++ nl ++ lit "🔄 البوت ينشر المحتوى تلقائياً حسب الجدول أعلاه".

Section Handler.

Variable lower : str -> str.
Variable bot_send_message : list Event -> str -> str -> Res unit.
Variable telegram_bot : TelegramBot.t.
Variable generate_content : list Event -> str -> Res (option str).
Variable parse_at : str -> Res Z.
Variable datetime_now : list Event -> Z.
Variable strftime : str -> Z -> str.

(** [self.bot.send_message(chat_id, text)] of the handler's own client. *)
Variable handler_send_message : list Event -> str -> str -> Res unit.

Definition reply (chat_id text : str) : M unit :=
  fun w => (handler_send_message (trace w) chat_id text, emit (ApiSend chat_id text) w).

(** [show_schedule(self, message)], with [message.chat.id]. *)
Definition show_schedule (chat_id : str) : M unit :=
  fun w =>
    let schedule_info :=
      ContentScheduler.as_dict (ContentScheduler.get_schedule_status strftime w) in
    reply chat_id (schedule_text schedule_info) w.

(** One round of the [while True] of [start_scheduler]. *)
Definition scheduler_round : M unit :=
  try_except
    (ContentScheduler.run_pending_tasks lower bot_send_message telegram_bot
       generate_content datetime_now strftime ;;
     sleep 30)
    (fun e =>
       log ERROR (lit "❌ Scheduler error: " ++ exn_str e ++ lit " - continuing...") ;;
       sleep 60).

Fixpoint scheduler_rounds (rounds : nat) : M unit :=
  match rounds with
  | 0 => ret tt
  | S rounds' => scheduler_round ;; scheduler_rounds rounds'
  end.

(** [start_scheduler(self)], up to the first [rounds] rounds of its
    [while True]. *)
Definition start_scheduler (rounds : nat) : M unit :=
  log INFO (lit "📅 Starting content scheduler...") ;;
  ContentScheduler.setup_schedule parse_at datetime_now strftime None ;;
  scheduler_rounds rounds.

(** [stop(self)]. *)
Definition stop : M unit :=
  log INFO (lit "📶 Stop request ignored - Bot will continue running!").

End Handler.

End CombinedBotHandler.

(* ===================================================================== *)
(** * [src/main.py]: [IslamicTelegramBot.start]                           *)
(* ===================================================================== *)

Module IslamicTelegramBot.

(** What a call to [self.bot_handler.start_scheduler()] does, seen from
    [start]. *)
Inductive Outcome := Returns | Raises (e : Exn) | NeverReturns.

(** How one round of [while True] ends: it reaches the end of the body
    or a [continue], or it is still inside a call that never returns. *)
Inductive Flow := Again | Blocked.

Section Supervisor.

Variable lower : str -> str.
Variable bot_send_message : list Event -> str -> str -> Res unit.
Variable bot_get_me : list Event -> Res str.
Variable bot_get_chat : list Event -> str -> Res (option str).
Variable telegram_bot : TelegramBot.t.

(** [self.config.validate()] and
    [self.content_generator.test_connection()]. *)
Variable config_validate : list Event -> Res bool.
Variable generator_test_connection : list Event -> Res bool.

Variable start_scheduler : list Event -> Outcome.

Definition call {A} (what : str) (answer : list Event -> Res A) : M A :=
  fun w => (answer (trace w), emit (Call what) w).

Definition effect (what : str) : M unit :=
  fun w => (Ret tt, emit (Call what) w).

(** [bot_handler.start_bot_polling()]: starts the polling thread. *)
Definition start_bot_polling : M unit :=
  effect (lit "threading.Thread(target=bot_polling, daemon=True).start") ;;
  log INFO (lit "✅ Interactive bot started successfully").

(** [None] when the call never returns. *)
Definition run_scheduler : M (option unit) :=
  fun w =>
    let w' := emit (Call (lit "bot_handler.start_scheduler")) w in
    match start_scheduler (trace w) with
    | Returns => (Ret (Some tt), w')
    | Raises e => (Raise e, w')
    | NeverReturns => (Ret None, w')
    end.

(** The body of the [try] up to the foreground call; [false] stands
    for a [continue]. *)
Definition startup : M bool :=
  log INFO (lit "🤖 Starting Enhanced Islamic Telegram Bot...") ;;
  valid <- call (lit "config.validate") config_validate ;;
  if negb valid then
    log ERROR (lit "❌ Configuration validation failed - retrying in 30 seconds...") ;;
    sleep 30 ;;
    ret false
  else
    connected <- TelegramBot.test_connection lower bot_get_me bot_get_chat telegram_bot ;;
    if negb connected then
      log ERROR (lit "❌ Failed to connect to Telegram - retrying in 30 seconds...") ;;
      sleep 30 ;;
      ret false
    else
      ready <- call (lit "content_generator.test_connection")
                    generator_test_connection ;;
      if negb ready then
        log ERROR (lit "❌ Failed to initialize content generator - retrying in 30 seconds...") ;;
        sleep 30 ;;
        ret false
      else
        effect (lit "signal.signal(SIGINT)") ;;
        effect (lit "signal.signal(SIGTERM)") ;;
        log INFO (lit "✅ Bot components initialized successfully!") ;;
        log INFO (lit "📅 Starting scheduled content posting...") ;;
        log INFO (lit "📿 Starting interactive azkar counter...") ;;
        log INFO (lit "📤 Channel: " ++ TelegramBot.channel_id telegram_bot) ;;
        try_except
          (let startup_message := lit "سبحان الله" in
           TelegramBot.send_message lower bot_send_message telegram_bot
             startup_message 0 ;;
           ret tt)
          (fun e =>
             log WARNING (lit "⚠️ Could not send startup message: " ++ exn_str e)) ;;
        start_bot_polling ;;
        ret true.

(** One round of the [while True] of [start]. *)
Definition start_round : M Flow :=
  try_except
    (started <- startup ;;
     if started : bool then
       returned <- run_scheduler ;;
       match returned with
       | Some _ =>
           log ERROR (lit "❌ Scheduler stopped unexpectedly - restarting in 10 seconds...") ;;
           sleep 10 ;;
           ret Again
       | None => ret Blocked
       end
     else ret Again)
    (fun e =>
       log ERROR (lit "❌ Error in main bot loop: " ++ exn_str e
                  ++ lit " - restarting in 30 seconds...") ;;
       sleep 30 ;;
       ret Again).

(** The first [rounds] rounds of [while True]. *)
Fixpoint start (rounds : nat) : M Flow :=
  match rounds with
  | 0 => ret Again
  | S rounds' =>
      flow <- start_round ;;
      match flow with
      | Again => start rounds'
      | Blocked => ret Blocked
      end
  end.

End Supervisor.

End IslamicTelegramBot.

(* ===================================================================== *)
(** * Sample collaborators                                                *)
(* ===================================================================== *)

Module Sample.

Definition world0 : World := mkWorld [] [] [] 0.

Definition bot : TelegramBot.t := TelegramBot.__init__ (lit "@channel").

(** A client that delivers, one that is always rate limited and one
    whose chat has blocked the bot, with the texts Telegram sends. *)
Definition delivering : list Event -> str -> str -> Res unit :=
  fun _ _ _ => Ret tt.

Definition rate_limiting : list Event -> str -> str -> Res unit :=
  fun _ _ _ =>
    Raise (ApiTelegramException
             (lit "A request to the Telegram API was unsuccessful. Error code: 429. Description: Too Many Requests: retry after 5")).

Definition blocked : list Event -> str -> str -> Res unit :=
  fun _ _ _ =>
    Raise (ApiTelegramException
             (lit "A request to the Telegram API was unsuccessful. Error code: 403. Description: Forbidden: bot was blocked by the user")).

Definition generating : list Event -> str -> Res (option str) :=
  fun _ _ => Ret (Some (lit "text")).

Definition clock : list Event -> Z := fun _ => 0%Z.

Definition strftime : str -> Z -> str :=
  fun _ t => str_of_nat (Z.to_nat t).

Definition digit (c : N) : option Z :=
  if ((48 <=? c) && (c <=? 57))%N then Some (Z.of_N c - 48)%Z else None.

(** Modelled from the spec: the [at] of the [schedule] package is not
    under [src/]; "[time_of_day]: HH:MM". *)
Definition parse_hhmm (time_str : str) : Res Z :=
  let invalid := Raise (Exception (lit "Invalid time format for a daily job")) in
  match time_str with
  | [h1; h2; colon; m1; m2] =>
      match digit h1, digit h2, digit m1, digit m2 with
      | Some a, Some b, Some c, Some d =>
          let hh := (10 * a + b)%Z in
          let mm := (10 * c + d)%Z in
          if ((colon =? 58)%N && (hh <? 24)%Z && (mm <? 60)%Z)%bool
          then Ret (hh * 3600 + mm * 60)%Z
          else invalid
      | _, _, _, _ => invalid
      end
  | _ => invalid
  end.

(** A mapping with one entry whose time does not parse. *)
Definition one_malformed : dict str :=
  [ (lit "morning_azkar", lit "06:00");
    (lit "quran_verse", lit "8 o'clock");
    (lit "daily_dua", lit "20:00") ].

(** A mapping with a content type of its own. *)
Definition custom : dict str := [ (lit "friday_sermon", lit "11:30") ].

(** A message of 4500 characters. *)
Definition long_message : str := repeat 97%N 4500.

(** Collaborators of [start] that all answer well, and a foreground
    call that returns. *)
Definition get_me : list Event -> Res str := fun _ => Ret (lit "islam_bot").

Definition get_chat : list Event -> str -> Res (option str) :=
  fun _ _ => Ret (Some (lit "Channel")).

Definition valid : list Event -> Res bool := fun _ => Ret true.

Definition returning : list Event -> IslamicTelegramBot.Outcome :=
  fun _ => IslamicTelegramBot.Returns.

End Sample.

(* ===================================================================== *)
(** * Observations on traces                                              *)
(* ===================================================================== *)

(** The texts handed to the Telegram client, in order. *)
Definition sent_texts (tr : list Event) : list str :=
  flat_map (fun e => match e with ApiSend _ text => [text] | _ => [] end) tr.

(** A trace without its log lines. *)
Definition actions (tr : list Event) : list Event :=
  filter (fun e => match e with Log _ _ => false | _ => true end) tr.

(** The alternation of tries and cooldowns of a send that is always
    rate limited. *)
Definition try_then_sleep (chat_id text : str) (secs times : nat) : list Event :=
  List.concat (repeat [ApiSend chat_id text; Sleep secs] times).

(** The trace of one call of [send_message] up to and including its first
    try. *)
Definition first_try (chat message : str) : list Event :=
  [Log INFO (lit "📤 Sending message to " ++ chat ++ lit "...")]
  ++ (if TelegramBot.oversized message
      then [Log WARNING (lit "⚠️ Message truncated to fit Telegram limit")]
      else [])
  ++ [ApiSend chat (TelegramBot.fit message)].

(** A client that answers every send with an error the code classifies as
    rate limiting ("too many requests"). *)
Definition always_rate_limited
    (lower : str -> str)
    (bot_send_message : list Event -> str -> str -> Res unit) : Prop :=
  forall h chat_id text,
  exists e,
    bot_send_message h chat_id text = Raise (ApiTelegramException e)
    /\ TelegramBot.classify (lower e) = TelegramBot.RateLimited.





(** [w'] is [w] after the effects [new], with the registry untouched. *)
Definition extends (w w' : World) (new : list Event) : Prop :=
  w' = mkWorld (trace w ++ new) (jobs w) (scheduled_jobs w) (next_id w).

(** A computation that returns, and only adds to the trace. *)
Definition returns_quietly {A} (m : M A) : Prop :=
  forall w, exists a new, m w = (Ret a, mkWorld (trace w ++ new) (jobs w)
                                              (scheduled_jobs w) (next_id w)).

(** The (content type, time of day) pairs of the registered jobs. *)
Definition registered (w : World) : list (str * Z) :=
  map (fun job => (job_content_type job, job_at job)) (jobs w).

(** The entries of a mapping whose time parses, with the parsed time. *)
Definition well_formed (parse_at : str -> Res Z) (times : dict str)
  : list (str * Z) :=
  flat_map (fun '(content_type, time_str) =>
              match parse_at time_str with
              | Ret at_time => [(content_type, at_time)]
              | Raise _ => []
              end) times.

(** The line [setup_schedule] logs for an entry it could not schedule. *)
Definition failed_to_schedule (content_type time_str : str) (e : Exn) : Event :=
  Log ERROR (lit "❌ Failed to schedule " ++ content_type
             ++ lit " at " ++ time_str ++ lit ": " ++ exn_str e).

(** A computation that only adds to the trace. *)
Definition grows {A} (m : M A) : Prop :=
  forall w, exists new, trace (snd (m w)) = trace w ++ new.

(** A computation whose first effects are [pre]. *)
Definition begins {A} (pre : list Event) (m : M A) : Prop :=
  forall w, exists rest, trace (snd (m w)) = trace w ++ pre ++ rest.

(** A computation that raises nothing. *)
Definition never_raises {A} (m : M A) : Prop :=
  forall w, exists a, fst (m w) = Ret a.

(** The world in which [start] finds itself when the foreground call has
    returned and the pause is over. *)
Definition restarted (w : World) : World :=
  emit (Sleep 10)
    (emit (Log ERROR (lit "❌ Scheduler stopped unexpectedly - restarting in 10 seconds..."))
       (emit (Call (lit "bot_handler.start_scheduler")) w)).

(* ===================================================================== *)
(** * Further observations                                                *)
(* ===================================================================== *)

(** The lengths of the sleeps of a trace and the content types it asked
    the generator for, in order. *)
Definition sleeps (tr : list Event) : list nat :=
  flat_map (fun e => match e with Sleep secs => [secs] | _ => [] end) tr.

(** The time a trace spends asleep, in seconds. *)
Definition slept (tr : list Event) : nat := list_sum (sleeps tr).

Definition generated (tr : list Event) : list str :=
  flat_map (fun e => match e with Generate content_type => [content_type] | _ => [] end) tr.

(** A client that answers every send with an error the code retries
    after [retry_delay]: a timeout or an unclassified API error. *)
Definition always_transient
    (lower : str -> str)
    (bot_send_message : list Event -> str -> str -> Res unit) : Prop :=
  forall h chat_id text,
  exists e,
    bot_send_message h chat_id text = Raise (ApiTelegramException e)
    /\ (TelegramBot.classify (lower e) = TelegramBot.TimedOut
        \/ TelegramBot.classify (lower e) = TelegramBot.Other).

(** A client that answers the sends number [first], ..., [first +
    failures - 1] with the error [e] and delivers from then on. *)
Definition fails_then_delivers
    (bot_send_message : list Event -> str -> str -> Res unit)
    (first failures : nat) (e : str) : Prop :=
  forall h chat_id text,
    bot_send_message h chat_id text
    = if List.length (sent_texts h) <? first + failures
      then Raise (ApiTelegramException e)
      else Ret tt.

(** A try, then [retries] times a sleep and a try. *)
Definition try_sleep_try (chat_id text : str) (secs retries : nat) : list Event :=
  ApiSend chat_id text
    :: List.concat (repeat [Sleep secs; ApiSend chat_id text] retries).

(** The line [send_formatted_content] puts before the content. *)
Definition header (content_type : str) : str :=
  get TelegramBot.emoji_map content_type (lit "🕌") ++ lit " <b>"
    ++ TelegramBot._get_content_title content_type ++ lit "</b>" ++ nl ++ nl.

(** Whether what the generator answered is content the code goes on
    with. *)
Definition usable (answer : Res (option str)) : bool :=
  match answer with
  | Ret (Some (_ :: _)) => true
  | _ => false
  end.

(** An event of the delivery path: a log line, a sleep or a send. *)
Definition delivery_event (e : Event) : Prop :=
  match e with
  | Log _ _ | Sleep _ | ApiSend _ _ => True
  | Generate _ | Call _ => False
  end.

(** The identity of the job an entry of [self.scheduled_jobs] holds, and
    the content type the entry records. *)
Definition entry_job (entry : str * str * nat) : nat := snd entry.
Definition entry_content_type (entry : str * str * nat) : str := fst (fst entry).

(** The bookkeeping of [ContentScheduler] is consistent: the entries of
    [self.scheduled_jobs] hold distinct jobs, all created before the next
    one, and each registered job is found there under its own content
    type. *)
Definition consistent (w : World) : Prop :=
  NoDup (map entry_job (scheduled_jobs w))
  /\ (forall entry, In entry (scheduled_jobs w) -> entry_job entry < next_id w)
  /\ (forall job, In job (jobs w) ->
                  ContentScheduler.content_type_of (scheduled_jobs w) job
                  = job_content_type job).

(** Runs listed in ascending order of time. *)
Definition ascending (runs : list (Z * str)) : Prop :=
  Sorted (fun a b => (fst a <= fst b)%Z) runs.

(** Further sample collaborators. *)
Module SampleMore.

(** A client whose every send times out, one that times out twice and
    then delivers, and one that fails outside the Telegram API. *)
Definition timing_out : list Event -> str -> str -> Res unit :=
  fun _ _ _ =>
    Raise (ApiTelegramException (lit "Read timed out. (read timeout=25)")).

Definition flaky : list Event -> str -> str -> Res unit :=
  fun h _ _ =>
    if List.length (sent_texts h) <? 0 + 2
    then Raise (ApiTelegramException (lit "Read timed out. (read timeout=25)"))
    else Ret tt.

Definition broken : list Event -> str -> str -> Res unit :=
  fun _ _ _ => Raise (Exception (lit "Connection reset by peer")).

(** A generator without content, a client whose [get_me] fails outside
    the API, a configuration that is not valid and a foreground call that
    raises. *)
Definition silent : list Event -> str -> Res (option str) := fun _ _ => Ret None.

(** A generator that raises on [daily_hadith] and has content for the
    rest. *)
Definition failing_on_hadith : list Event -> str -> Res (option str) :=
  fun _ content_type =>
    if str_eqb content_type (lit "daily_hadith")
    then Raise (Exception (lit "API quota exceeded"))
    else Ret (Some (lit "text")).

Definition get_me_broken : list Event -> Res str :=
  fun _ => Raise (Exception (lit "Connection reset by peer")).

Definition invalid : list Event -> Res bool := fun _ => Ret false.

Definition raising : list Event -> IslamicTelegramBot.Outcome :=
  fun _ => IslamicTelegramBot.Raises (Exception (lit "boom")).

(** The world after [setup_schedule] on [Sample.custom]. *)
Definition scheduled : World :=
  snd (ContentScheduler.setup_schedule Sample.parse_hhmm Sample.clock
         Sample.strftime (Some Sample.custom) Sample.world0).

End SampleMore.

(* ===================================================================== *)
(** * Properties                                                          *)
(* ===================================================================== *)

Set Default Proof Using "Type".

Lemma sent_texts_app a b : sent_texts (a ++ b) = sent_texts a ++ sent_texts b.
Proof. apply flat_map_app. Qed.

Lemma actions_app a b : actions (a ++ b) = actions a ++ actions b.
Proof. apply filter_app. Qed.

Lemma extends_refl w : extends w w [].
Proof. unfold extends. rewrite app_nil_r. destruct w; reflexivity. Qed.

Lemma extends_trans w w1 w2 n1 n2 :
  extends w w1 n1 -> extends w1 w2 n2 -> extends w w2 (n1 ++ n2).
Proof. unfold extends. intros -> ->. simpl. rewrite app_assoc. reflexivity. Qed.

Lemma extends_jobs w w' new : extends w w' new -> jobs w' = jobs w.
Proof. intros ->. reflexivity. Qed.

Lemma extends_trace w w' new : extends w w' new -> trace w' = trace w ++ new.
Proof. intros ->. reflexivity. Qed.

(** ** The size guard *)

Lemma fit_length message : List.length (TelegramBot.fit message) <= 4096.
Proof.
  unfold TelegramBot.fit, TelegramBot.oversized.
  destruct (Nat.ltb_spec 4096 (List.length message)) as [H|H]; [|exact H].
  rewrite length_app, length_firstn.
  change (List.length (lit "...")) with 3. lia.
Qed.

Lemma fit_small message :
  List.length message <= 4096 -> TelegramBot.fit message = message.
Proof.
  intros H. unfold TelegramBot.fit, TelegramBot.oversized.
  destruct (Nat.ltb_spec 4096 (List.length message)); [lia | reflexivity].
Qed.

Lemma fit_fit message :
  TelegramBot.fit (TelegramBot.fit message) = TelegramBot.fit message.
Proof. apply fit_small, fit_length. Qed.

(** ** [send_message] *)

Section SendMessage.

Variable lower : str -> str.
Variable bot_send_message : list Event -> str -> str -> Res unit.
Variable self : TelegramBot.t.

Let send_message := TelegramBot.send_message lower bot_send_message self.
Let chat := TelegramBot.channel_id self.
Let attempts := TelegramBot.retry_attempts self.

Ltac step :=
  unfold send_message;
  rewrite TelegramBot.send_message_equation_1;
  cbv beta iota zeta
      delta [try_except bind log sleep when ret TelegramBot.api_send emit];
  cbn [trace jobs scheduled_jobs next_id].

Ltac settle_extends :=
  unfold extends in *; cbn [trace jobs scheduled_jobs next_id] in *;
  repeat rewrite <- app_assoc; reflexivity.

Ltac stop_here :=
  exists 1; do 2 eexists; split; [reflexivity|]; split; [settle_extends|];
  split; [reflexivity|]; split; [lia|]; eexists; reflexivity.

Ltac retry IH :=
  match goal with
  | |- context [TelegramBot.send_message _ _ _ ?m ?r ?W] =>
      let b := fresh "b" in let n := fresh "n" in
      let new := fresh "new" in let w' := fresh "w'" in
      let E := fresh "E" in let X := fresh "X" in
      let T := fresh "T" in let B := fresh "B" in
      destruct (IH (attempts - r) ltac:(unfold attempts in *; lia) r m W eq_refl)
        as (b & n & new & w' & E & X & T & B & _);
      unfold send_message in E; rewrite E; exists b, (S n); do 2 eexists;
      split; [reflexivity|]; split;
      [unfold extends in *; cbn [trace jobs scheduled_jobs next_id] in *;
       rewrite X; repeat rewrite <- app_assoc; reflexivity|];
      split;
      [repeat rewrite sent_texts_app; rewrite T, fit_fit; reflexivity|];
      split; [lia|]; eexists; reflexivity
  end.

(** [send_message] returns a boolean whatever the client does; it only
    adds to the trace; every text it hands to the client is the fitted
    message; and it tries at least once and at most once more than the
    retries it has left. *)
Lemma send_message_runs :
  forall k retry_count message w,
    attempts - retry_count = k ->
    exists b n new w',
      send_message message retry_count w = (Ret b, w')
      /\ extends w w' new
      /\ sent_texts new = repeat (TelegramBot.fit message) n
      /\ 1 <= n <= S k
      /\ exists rest, new = first_try chat message ++ rest.
Proof.
  induction k as [k IH] using lt_wf_ind; intros rc message w Hk.
  step. unfold first_try, chat.
  destruct (TelegramBot.oversized message);
    (destruct (bot_send_message _ _ _) as [[]|[text|text]];
     [ eexists; stop_here
     | destruct (TelegramBot.classify (lower text));
       [ destruct (lt_dec rc (TelegramBot.retry_attempts self));
         [ retry IH | eexists; stop_here ]
       | destruct (lt_dec rc (TelegramBot.retry_attempts self));
         [ retry IH | eexists; stop_here ]
       | eexists; stop_here
       | destruct (lt_dec rc (TelegramBot.retry_attempts self));
         [ retry IH | eexists; stop_here ] ]
     | eexists; stop_here ]).
Qed.

Lemma send_message_returns_quietly message retry_count :
  returns_quietly (send_message message retry_count).
Proof.
  intros w.
  destruct (send_message_runs retry_count message w eq_refl)
    as (b & _ & new & w' & E & X & _).
  exists b, new. rewrite E, X. reflexivity.
Qed.

(** C3.  When the client answers the send with a permanent failure (an
    [ApiTelegramException] that the code classifies as critical: "chat
    not found" or "bot was blocked"), [send_message] returns [False]
    after exactly one try and without sleeping: apart from log lines,
    the only effect is that one call of the client. *)
Theorem send_message_permanent_failure :
  forall message retry_count w text,
    (forall h, bot_send_message h chat (TelegramBot.fit message)
               = Raise (ApiTelegramException text)) ->
    TelegramBot.classify (lower text) = TelegramBot.Critical ->
    exists new w',
      send_message message retry_count w = (Ret false, w')
      /\ extends w w' new
      /\ actions new = [ApiSend chat (TelegramBot.fit message)]
      /\ List.length (sent_texts new) = 1
      /\ forall secs, ~ In (Sleep secs) new.
Proof.
  intros message rc w text Hfail Hclass.
  step. fold chat.
  destruct (TelegramBot.oversized message);
    rewrite Hfail, Hclass;
    (do 2 eexists; split; [reflexivity|]; split; [settle_extends|];
     split; [reflexivity|]; split; [reflexivity|];
     intros secs Hin; cbn in Hin;
     repeat destruct Hin as [Hin|Hin]; try discriminate Hin; exact Hin).
Qed.

Lemma rate_limited_from :
  always_rate_limited lower bot_send_message ->
  forall k retry_count message w,
    attempts - retry_count = k ->
    exists new w',
      send_message message retry_count w = (Ret false, w')
      /\ extends w w' new
      /\ actions new = try_then_sleep chat (TelegramBot.fit message) 60 (S k).
Proof.
  intros Hlim.
  induction k as [k IH] using lt_wf_ind; intros rc message w Hk.
  step. fold chat.
  destruct (TelegramBot.oversized message);
    (match goal with
     | |- context [bot_send_message ?h ?c ?t] =>
         destruct (Hlim h c t) as (e & -> & ->)
     end;
     destruct (lt_dec rc (TelegramBot.retry_attempts self)) as [Hlt|Hge];
     [ match goal with
       | |- context [TelegramBot.send_message _ _ _ ?m ?r ?W] =>
           destruct (IH (attempts - r) ltac:(unfold attempts in *; lia)
                        r m W eq_refl) as (new & w' & E & X & A);
           unfold send_message in E; rewrite E; do 2 eexists;
           split; [reflexivity|]; split;
           [unfold extends in *; cbn [trace jobs scheduled_jobs next_id] in *;
            rewrite X; repeat rewrite <- app_assoc; reflexivity|];
           repeat rewrite actions_app; rewrite A, fit_fit;
           replace (S k) with (S (S (attempts - r)))
             by (unfold attempts in *; lia);
           reflexivity
       end
     | do 2 eexists; split; [reflexivity|]; split; [settle_extends|];
       replace k with 0 by (unfold attempts in *; lia); reflexivity ]).
Qed.

Lemma sent_texts_actions tr : sent_texts (actions tr) = sent_texts tr.
Proof.
  induction tr as [|e tr IH]; [reflexivity|].
  destruct e; cbn [actions filter]; fold (actions tr);
    change (sent_texts (?x :: ?l)) with (sent_texts [x] ++ sent_texts l);
    rewrite IH; reflexivity.
Qed.

Lemma sent_texts_try_then_sleep c text secs n :
  sent_texts (try_then_sleep c text secs n) = repeat text n.
Proof.
  induction n as [|n IH]; [reflexivity|].
  unfold try_then_sleep in *. cbn [repeat List.concat].
  rewrite sent_texts_app, IH. reflexivity.
Qed.

(** C2.  When the client answers every send with a rate-limit error,
    [send_message] returns [False] after exactly [1 + retry_attempts]
    tries (4 with the [retry_attempts = 3] of [__init__]); apart from
    log lines its effects are try, 60 s sleep, try, 60 s sleep, ...: a
    sleep of the fixed 60 s comes before each retry. *)
Theorem send_message_rate_limited :
  always_rate_limited lower bot_send_message ->
  forall message w,
  exists new w',
    send_message message 0 w = (Ret false, w')
    /\ extends w w' new
    /\ List.length (sent_texts new) = 1 + attempts
    /\ actions new
       = try_then_sleep chat (TelegramBot.fit message) 60 (1 + attempts).
Proof.
  intros Hlim message w.
  destruct (rate_limited_from Hlim 0 message w eq_refl)
    as (new & w' & E & X & A).
  rewrite Nat.sub_0_r in A.
  exists new, w'. repeat split; try assumption.
  rewrite <- sent_texts_actions, A, sent_texts_try_then_sleep.
  apply repeat_length.
Qed.

(** C4.  Every text [send_message] hands to the client is the fitted
    message, whose length is at most 4096; a message of at most 4096
    characters is handed over unchanged; a longer one is cut to its first
    4090 = 4096 - 6 characters followed by the three characters "...",
    4093 = 4096 - 3 in all, and the truncation is logged as a warning. *)
Theorem send_message_fits :
  forall message retry_count w,
  exists b n new w',
    send_message message retry_count w = (Ret b, w')
    /\ extends w w' new
    /\ 1 <= n
    /\ sent_texts new = repeat (TelegramBot.fit message) n
    /\ List.length (TelegramBot.fit message) <= 4096
    /\ (List.length message <= 4096 -> TelegramBot.fit message = message)
    /\ (4096 < List.length message ->
          TelegramBot.fit message = firstn (4096 - 6) message ++ lit "..."
          /\ List.length (firstn (4096 - 6) message) = 4096 - 6
          /\ List.length (lit "...") = 3
          /\ List.length (TelegramBot.fit message) = 4096 - 3
          /\ In (Log WARNING (lit "⚠️ Message truncated to fit Telegram limit"))
                new).
Proof.
  intros message rc w.
  destruct (send_message_runs rc message w eq_refl)
    as (b & n & new & w' & E & X & T & B & rest & Hnew).
  exists b, n, new, w'.
  split; [exact E|]. split; [exact X|]. split; [lia|]. split; [exact T|].
  split; [apply fit_length|]. split; [apply fit_small|].
  intros Hlong.
  assert (Hover : TelegramBot.oversized message = true)
    by (apply Nat.ltb_lt; exact Hlong).
  assert (Hcut : List.length (firstn (4096 - 6) message) = 4096 - 6)
    by (rewrite length_firstn; change (4096 - 6) with 4090; lia).
  assert (Hfit : TelegramBot.fit message = firstn (4096 - 6) message ++ lit "...")
    by (unfold TelegramBot.fit; rewrite Hover; reflexivity).
  split; [exact Hfit|]. split; [exact Hcut|]. split; [reflexivity|].
  split.
  - rewrite Hfit, length_app, Hcut. reflexivity.
  - rewrite Hnew. unfold first_try. rewrite Hover.
    apply in_or_app. left. right. left. reflexivity.
Qed.

End SendMessage.

(** ** [send_formatted_content] *)

Lemma get_missing V (d : dict V) k default :
  has_key d k = false -> get d k default = default.
Proof.
  induction d as [|[k' v] d IH]; cbn [has_key get]; [reflexivity|].
  intros H. apply orb_false_iff in H as [-> H]. apply IH, H.
Qed.

Section SendFormattedContent.

Variable lower : str -> str.
Variable bot_send_message : list Event -> str -> str -> Res unit.
Variable self : TelegramBot.t.

(** C10.  With [None] or empty text as content,
    [send_formatted_content] logs an error and returns [False] without
    calling [send_message]: nothing is handed to the client.  With
    non-empty content and a content type that has no entry in
    [emoji_map] and [titles], it calls [send_message] on the generic
    emoji and the generic title in bold, a blank line and the content. *)
Theorem send_formatted_content_cases :
  forall content_type content w,
    (content = None \/ content = Some [] ->
     TelegramBot.send_formatted_content lower bot_send_message self
       content_type content w
     = (Ret false, emit (Log ERROR (lit "❌ Cannot send empty content")) w)
     /\ sent_texts (trace (emit (Log ERROR (lit "❌ Cannot send empty content")) w))
        = sent_texts (trace w))
    /\ (forall text,
           content = Some text -> text <> [] ->
           has_key TelegramBot.emoji_map content_type = false ->
           TelegramBot.send_formatted_content lower bot_send_message self
             content_type content w
           = TelegramBot.send_message lower bot_send_message self
               (lit "🕌" ++ lit " <b>" ++ lit "محتوى إسلامي" ++ lit "</b>"
                    ++ nl ++ nl ++ text)
               0 w).
Proof.
  intros ct content w. split.
  - intros [-> | ->]; (split; [reflexivity|]);
      cbn [emit trace]; rewrite sent_texts_app; apply app_nil_r.
  - intros text -> Hne Hmiss.
    assert (Htitle : has_key TelegramBot.titles ct = false) by exact Hmiss.
    destruct text as [|c text]; [contradiction|].
    unfold TelegramBot.send_formatted_content, TelegramBot._get_content_title.
    rewrite (get_missing _ _ _ Hmiss), (get_missing _ _ _ Htitle).
    reflexivity.
Qed.

End SendFormattedContent.

(** ** The job registry *)

Lemma insert_by_In A (key : A -> Z) x y l :
  In y (insert_by key x l) <-> y = x \/ In y l.
Proof.
  induction l as [|z l IH]; cbn [insert_by].
  - cbn. intuition congruence.
  - destruct (key x <=? key z)%Z; cbn [In]; [intuition congruence|].
    rewrite IH. intuition congruence.
Qed.

Lemma sort_by_In A (key : A -> Z) y l : In y (sort_by key l) <-> In y l.
Proof.
  induction l as [|x l IH]; [reflexivity|].
  unfold sort_by in *. cbn [fold_right In].
  rewrite insert_by_In, IH. intuition congruence.
Qed.











(** ** [ContentScheduler] *)

Lemma for_each_returns_quietly A (xs : list A) (body : A -> M unit) :
  (forall x, returns_quietly (body x)) -> returns_quietly (for_each xs body).
Proof.
  intros Hbody. induction xs as [|x xs IH]; intros w.
  - exists tt, []. cbn. rewrite app_nil_r. destruct w; reflexivity.
  - cbn [for_each]. unfold bind.
    destruct (Hbody x w) as ([] & new1 & ->).
    destruct (IH (mkWorld (trace w ++ new1) (jobs w) (scheduled_jobs w) (next_id w)))
      as ([] & new2 & ->).
    exists tt, (new1 ++ new2). cbn [trace jobs scheduled_jobs next_id].
    rewrite app_assoc. reflexivity.
Qed.

Lemma log_returns_quietly lvl msg : returns_quietly (log lvl msg).
Proof. intros w. exists tt, [Log lvl msg]. reflexivity. Qed.


Section GenerateAndSend.

Variable lower : str -> str.
Variable bot_send_message : list Event -> str -> str -> Res unit.
Variable telegram_bot : TelegramBot.t.
Variable generate_content : list Event -> str -> Res (option str).
Variable datetime_now : list Event -> Z.
Variable strftime : str -> Z -> str.

Let _generate_and_send_content :=
  ContentScheduler._generate_and_send_content
    lower bot_send_message telegram_bot generate_content datetime_now strftime.
Let run_content_now :=
  ContentScheduler.run_content_now
    lower bot_send_message telegram_bot generate_content datetime_now strftime.

Ltac run :=
  cbv beta iota zeta
      delta [try_except bind log sleep when ret emit
             ContentScheduler.now ContentScheduler.generate];
  cbn [trace jobs scheduled_jobs next_id].

Ltac quiet :=
  do 1 eexists; unfold extends; cbn [trace jobs scheduled_jobs next_id];
  repeat rewrite <- app_assoc; reflexivity.

(** Every failure of generation or delivery is swallowed:
    [_generate_and_send_content] returns, and touches nothing but the
    trace. *)
Lemma generate_and_send_content_returns_quietly content_type :
  returns_quietly (_generate_and_send_content content_type).
Proof.
  intros w. exists tt.
  unfold _generate_and_send_content, ContentScheduler._generate_and_send_content.
  run.
  destruct (generate_content _ _) as [[[|c text]|]|e]; try quiet.
  unfold TelegramBot.send_formatted_content.
  match goal with
  | |- context [TelegramBot.send_message _ _ _ ?m ?r ?W] =>
      destruct (send_message_returns_quietly lower bot_send_message
                  telegram_bot m r W) as (b & new & E)
  end.
  rewrite E. destruct b; quiet.
Qed.

(** C9.  [_generate_and_send_content] returns normally whatever the
    generator and the client do, touching only the trace, and
    [run_content_now] returns exactly whether the content type is a key
    of [default_schedule]: [True] for every such key, whether or not
    content was generated or delivered. *)
Theorem run_content_now_result :
  forall content_type w,
    (exists new,
        _generate_and_send_content content_type w
        = (Ret tt, mkWorld (trace w ++ new) (jobs w) (scheduled_jobs w)
                           (next_id w)))
    /\ fst (run_content_now content_type w)
       = Ret (has_key ContentScheduler.default_schedule content_type).
Proof.
  intros ct w. split.
  - destruct (generate_and_send_content_returns_quietly ct w) as ([] & new & E).
    exists new. exact E.
  - unfold run_content_now, ContentScheduler.run_content_now.
    destruct (has_key ContentScheduler.default_schedule ct); cbn [negb].
    + unfold bind, log, ret.
      match goal with
      | |- context [ContentScheduler._generate_and_send_content
                      _ _ _ _ _ _ ?c ?W] =>
          destruct (generate_and_send_content_returns_quietly c W)
            as ([] & new & E)
      end.
      unfold _generate_and_send_content in E. rewrite E. reflexivity.
    + reflexivity.
Qed.

(** C6, as the code has it.  [run_content_now] tests the content type
    against the keys of [default_schedule], not against the registered
    jobs.  For any other content type it logs "Unknown content type"
    and returns [False] at once.  For a key of [default_schedule] it
    logs the manual trigger, runs [_generate_and_send_content], the very
    step a scheduled job runs, and returns [True]; the registry, and so
    every [next_run], is left as it was. *)
Theorem run_content_now_known_types :
  forall content_type w,
    (has_key ContentScheduler.default_schedule content_type = false ->
     run_content_now content_type w
     = (Ret false,
        emit (Log ERROR (lit "❌ Unknown content type: " ++ content_type)) w))
    /\ (has_key ContentScheduler.default_schedule content_type = true ->
        exists w',
          _generate_and_send_content content_type
            (emit (Log INFO (lit "🚀 Manually triggering " ++ content_type)) w)
          = (Ret tt, w')
          /\ run_content_now content_type w = (Ret true, w')
          /\ jobs w' = jobs w).
Proof.
  intros ct w. split; intros Hkey;
    unfold run_content_now, ContentScheduler.run_content_now;
    rewrite Hkey; cbn [negb]; [reflexivity|].
  unfold bind, log, ret.
  match goal with
  | |- context [ContentScheduler._generate_and_send_content
                  _ _ _ _ _ _ ?c ?W] =>
      destruct (generate_and_send_content_returns_quietly c W) as ([] & new & E)
  end.
  unfold _generate_and_send_content in E |- *. rewrite E.
  eexists. split; [reflexivity|]. split; reflexivity.
Qed.

End GenerateAndSend.

Section SetupSchedule.

Variable parse_at : str -> Res Z.
Variable datetime_now : list Event -> Z.
Variable strftime : str -> Z -> str.

Ltac run :=
  cbv beta iota zeta
      delta [try_except bind log sleep when ret emit
             ContentScheduler.now ContentScheduler.generate];
  cbn [trace jobs scheduled_jobs next_id].

Ltac quiet :=
  do 1 eexists; unfold extends; cbn [trace jobs scheduled_jobs next_id];
  repeat rewrite <- app_assoc; reflexivity.

Let setup_schedule :=
  ContentScheduler.setup_schedule parse_at datetime_now strftime.
Let schedule_entry := ContentScheduler.schedule_entry parse_at datetime_now.

Lemma log_next_runs_returns_quietly :
  returns_quietly (ContentScheduler._log_next_runs strftime).
Proof.
  intros w. unfold ContentScheduler._log_next_runs. run.
  match goal with
  | |- context [for_each ?xs ?body ?W] =>
      destruct (@for_each_returns_quietly _ xs body) with (w := W)
        as ([] & new & ->)
  end.
  - intros [t ct]. apply log_returns_quietly.
  - exists tt. quiet.
Qed.

(** One round of the loop of [setup_schedule]: an entry whose time
    parses adds one job; one whose time does not parse is logged and
    changes nothing else. *)
Lemma schedule_entry_parsed content_type time_str at_time w :
  parse_at time_str = Ret at_time ->
  schedule_entry (content_type, time_str) w
  = (Ret tt,
     mkWorld
       (trace w ++ [Log INFO (lit "   📍 " ++ content_type
                               ++ lit " scheduled at " ++ time_str)])
       (jobs w ++ [mkJob (next_id w) content_type at_time
                     (Schedule.first_run (datetime_now (trace w)) at_time)])
       (scheduled_jobs w ++ [(content_type, time_str, next_id w)])
       (S (next_id w))).
Proof.
  intros H. unfold schedule_entry, ContentScheduler.schedule_entry.
  run. unfold Schedule.every_day_at_do. rewrite H. reflexivity.
Qed.

Lemma schedule_entry_malformed content_type time_str e w :
  parse_at time_str = Raise e ->
  schedule_entry (content_type, time_str) w
  = (Ret tt,
     emit (Log ERROR (lit "❌ Failed to schedule " ++ content_type
                      ++ lit " at " ++ time_str ++ lit ": " ++ exn_str e)) w).
Proof.
  intros H. unfold schedule_entry, ContentScheduler.schedule_entry.
  run. unfold Schedule.every_day_at_do. rewrite H. reflexivity.
Qed.

Lemma schedule_entries times :
  forall w,
  exists new w',
    for_each times schedule_entry w = (Ret tt, w')
    /\ trace w' = trace w ++ new
    /\ registered w' = registered w ++ well_formed parse_at times
    /\ (forall content_type time_str e,
           In (content_type, time_str) times ->
           parse_at time_str = Raise e ->
           In (failed_to_schedule content_type time_str e) new).
Proof.
  induction times as [|[ct t] times IH]; intros w.
  - exists [], w. cbn. rewrite !app_nil_r. repeat split. intros ? ? ? [].
  - cbn [for_each]. unfold bind.
    destruct (parse_at t) as [a|e] eqn:Hp.
    + rewrite (schedule_entry_parsed ct w Hp).
      match goal with
      | |- context [for_each times schedule_entry ?W] =>
          destruct (IH W) as (new & w' & -> & Ht & Hr & Hl)
      end.
      cbn [trace jobs] in Ht, Hr |- *.
      eexists; exists w'. split; [reflexivity|].
      split; [rewrite Ht, <- app_assoc; reflexivity|].
      split.
      * rewrite Hr. unfold registered. cbn [jobs well_formed flat_map].
        rewrite Hp, map_app, <- app_assoc. reflexivity.
      * intros ct' t' e' [Heq|Hin] Hp'.
        -- inversion Heq; subst. congruence.
        -- apply in_or_app. right. eapply Hl; eauto.
    + rewrite (schedule_entry_malformed ct w Hp).
      match goal with
      | |- context [for_each times schedule_entry ?W] =>
          destruct (IH W) as (new & w' & -> & Ht & Hr & Hl)
      end.
      cbn [trace jobs emit] in Ht, Hr |- *.
      eexists; exists w'. split; [reflexivity|].
      split; [rewrite Ht, <- app_assoc; reflexivity|].
      split.
      * rewrite Hr. unfold registered. cbn [jobs well_formed flat_map].
        rewrite Hp. reflexivity.
      * intros ct' t' e' [Heq|Hin] Hp'.
        -- inversion Heq; subst. rewrite Hp in Hp'. inversion Hp'; subst.
           apply in_or_app. left. left. reflexivity.
        -- apply in_or_app. right. eapply Hl; eauto.
Qed.

Lemma setup_schedule_runs custom_times w :
  exists new w',
    setup_schedule custom_times w = (Ret tt, w')
    /\ trace w' = trace w ++ new
    /\ registered w'
       = well_formed parse_at (ContentScheduler.schedule_times custom_times)
    /\ (forall content_type time_str e,
           In (content_type, time_str)
              (ContentScheduler.schedule_times custom_times) ->
           parse_at time_str = Raise e ->
           In (failed_to_schedule content_type time_str e) new).
Proof.
  unfold setup_schedule, ContentScheduler.setup_schedule.
  cbv zeta. run. unfold Schedule.clear. run.
  fold schedule_entry.
  match goal with
  | |- context [for_each ?times schedule_entry ?W] =>
      destruct (schedule_entries times W) as (new & w1 & -> & Ht & Hr & Hl)
  end.
  match goal with
  | |- context [ContentScheduler._log_next_runs strftime ?W] =>
      destruct (log_next_runs_returns_quietly W) as ([] & new2 & ->)
  end.
  cbn [trace jobs scheduled_jobs next_id] in Ht, Hr |- *.
  do 2 eexists. split; [reflexivity|].
  cbn [trace]. split; [rewrite Ht; repeat rewrite <- app_assoc; reflexivity|].
  split; [exact Hr|].
  intros ct t e Hin Hp.
  pose proof (Hl _ _ _ Hin Hp) as Hlog.
  repeat rewrite in_app_iff. tauto.
Qed.

(** C7.  [setup_schedule] returns normally on every mapping.  The jobs
    it leaves registered are, in order, the entries whose time parses;
    an entry whose time does not parse registers nothing and is logged
    as an error. *)
Theorem setup_schedule_skips_malformed :
  forall custom_times w,
  exists new w',
    setup_schedule custom_times w = (Ret tt, w')
    /\ trace w' = trace w ++ new
    /\ registered w'
       = well_formed parse_at (ContentScheduler.schedule_times custom_times)
    /\ (forall content_type time_str e,
           In (content_type, time_str)
              (ContentScheduler.schedule_times custom_times) ->
           parse_at time_str = Raise e ->
           In (failed_to_schedule content_type time_str e) new).
Proof.
  intros custom_times w.
  exact (setup_schedule_runs custom_times w).
Qed.

Lemma well_formed_all times :
  (forall content_type time_str,
      In (content_type, time_str) times ->
      exists at_time, parse_at time_str = Ret at_time) ->
  map fst (well_formed parse_at times) = map fst times.
Proof.
  induction times as [|[ct t] times IH]; intros H; [reflexivity|].
  cbn [well_formed flat_map map].
  destruct (H ct t (or_introl eq_refl)) as (a & ->).
  fold (well_formed parse_at times).
  change ([(ct, a)] ++ well_formed parse_at times)
    with ((ct, a) :: well_formed parse_at times).
  cbn [map fst]. f_equal. apply IH.
  intros ct' t' Hin. apply (H ct' t'). right. exact Hin.
Qed.

Lemma insert_by_length A (key : A -> Z) x l :
  List.length (insert_by key x l) = S (List.length l).
Proof.
  induction l as [|y l IH]; cbn [insert_by]; [reflexivity|].
  destruct (key x <=? key y)%Z; cbn [List.length]; [reflexivity|].
  rewrite IH. reflexivity.
Qed.

Lemma sort_by_length A (key : A -> Z) l :
  List.length (sort_by key l) = List.length l.
Proof.
  induction l as [|x l IH]; [reflexivity|].
  unfold sort_by in *. cbn [fold_right].
  rewrite insert_by_length, IH. reflexivity.
Qed.

(** C5, as the code has it.  An empty mapping is falsy, so
    [setup_schedule] treats it as no mapping and rebuilds the registry
    from [default_schedule]: when the eight default times parse, the
    registry holds the eight default content types,
    [get_schedule_status] reports [total_jobs = 8] and the next runs
    that [_log_next_runs] lists are three. *)
Theorem setup_schedule_empty_mapping :
  (forall content_type time_str,
      In (content_type, time_str) ContentScheduler.default_schedule ->
      exists at_time, parse_at time_str = Ret at_time) ->
  forall w,
  exists w',
    setup_schedule (Some []) w = (Ret tt, w')
    /\ setup_schedule (Some []) w = setup_schedule None w
    /\ map job_content_type (jobs w')
       = map fst ContentScheduler.default_schedule
    /\ ContentScheduler.total_jobs
         (ContentScheduler.get_schedule_status strftime w') = 8
    /\ List.length (ContentScheduler.upcoming w') = 3.
Proof.
  intros Hparse w.
  destruct (setup_schedule_runs (Some []) w)
    as (new & w' & E & _ & Hr & _).
  fold setup_schedule in E.
  assert (Hjobs : map job_content_type (jobs w')
                  = map fst ContentScheduler.default_schedule).
  { rewrite <- (well_formed_all _ Hparse).
    change (ContentScheduler.schedule_times (Some [])) with
      ContentScheduler.default_schedule in Hr.
    rewrite <- Hr. unfold registered. rewrite map_map. reflexivity. }
  assert (Hlen : List.length (jobs w') = 8).
  { rewrite <- (length_map job_content_type), Hjobs. reflexivity. }
  exists w'. split; [exact E|]. split; [reflexivity|]. split; [exact Hjobs|].
  split; [exact Hlen|].
  unfold ContentScheduler.upcoming.
  rewrite length_firstn, sort_by_length, length_map, Hlen. reflexivity.
Qed.

End SetupSchedule.

(** ** The supervisor *)

Lemma grows_ret A (a : A) : grows (ret a).
Proof. intros w. exists []. cbn. rewrite app_nil_r. reflexivity. Qed.

Lemma grows_raise A e : grows (@raise A e).
Proof. intros w. exists []. cbn. rewrite app_nil_r. reflexivity. Qed.

Lemma grows_log lvl msg : grows (log lvl msg).
Proof. intros w. exists [Log lvl msg]. reflexivity. Qed.

Lemma grows_sleep secs : grows (sleep secs).
Proof. intros w. exists [Sleep secs]. reflexivity. Qed.

Lemma grows_bind A B (m : M A) (k : A -> M B) :
  grows m -> (forall a, grows (k a)) -> grows (bind m k).
Proof.
  intros Hm Hk w. unfold bind. destruct (Hm w) as (n1 & H1).
  destruct (m w) as [[a|e] w1]; cbn [snd] in *.
  - destruct (Hk a w1) as (n2 & H2). exists (n1 ++ n2).
    rewrite H2, H1, app_assoc. reflexivity.
  - exists n1. exact H1.
Qed.

Lemma grows_try_except A (body : M A) handler :
  grows body -> (forall e, grows (handler e)) -> grows (try_except body handler).
Proof.
  intros Hm Hk w. unfold try_except. destruct (Hm w) as (n1 & H1).
  destruct (body w) as [[a|e] w1]; cbn [snd] in *.
  - exists n1. exact H1.
  - destruct (Hk e w1) as (n2 & H2). exists (n1 ++ n2).
    rewrite H2, H1, app_assoc. reflexivity.
Qed.

Lemma grows_quiet A (m : M A) : returns_quietly m -> grows m.
Proof. intros H w. destruct (H w) as (a & new & ->). exists new. reflexivity. Qed.

Lemma begins_bind A B pre (m : M A) (k : A -> M B) :
  begins pre m -> (forall a, grows (k a)) -> begins pre (bind m k).
Proof.
  intros Hm Hk w. unfold bind. destruct (Hm w) as (r1 & H1).
  destruct (m w) as [[a|e] w1]; cbn [snd] in *.
  - destruct (Hk a w1) as (n2 & H2). exists (r1 ++ n2).
    rewrite H2, H1, <- !app_assoc. reflexivity.
  - exists r1. exact H1.
Qed.

Lemma begins_try_except A pre (body : M A) handler :
  begins pre body -> (forall e, grows (handler e)) ->
  begins pre (try_except body handler).
Proof.
  intros Hm Hk w. unfold try_except. destruct (Hm w) as (r1 & H1).
  destruct (body w) as [[a|e] w1]; cbn [snd] in *.
  - exists r1. exact H1.
  - destruct (Hk e w1) as (n2 & H2). exists (r1 ++ n2).
    rewrite H2, H1, <- !app_assoc. reflexivity.
Qed.

Lemma begins_log A lvl msg pre (k : M A) :
  begins pre k -> begins (Log lvl msg :: pre) (bind (log lvl msg) (fun _ => k)).
Proof.
  intros Hk w. unfold bind, log.
  destruct (Hk (emit (Log lvl msg) w)) as (rest & H).
  exists rest. rewrite H. cbn [emit trace]. rewrite <- app_assoc. reflexivity.
Qed.

Section Supervisor.

Variable lower : str -> str.
Variable bot_send_message : list Event -> str -> str -> Res unit.
Variable bot_get_me : list Event -> Res str.
Variable bot_get_chat : list Event -> str -> Res (option str).
Variable telegram_bot : TelegramBot.t.
Variable config_validate : list Event -> Res bool.
Variable generator_test_connection : list Event -> Res bool.
Variable start_scheduler : list Event -> IslamicTelegramBot.Outcome.

Let startup :=
  IslamicTelegramBot.startup lower bot_send_message bot_get_me bot_get_chat
    telegram_bot config_validate generator_test_connection.
Let start_round :=
  IslamicTelegramBot.start_round lower bot_send_message bot_get_me
    bot_get_chat telegram_bot config_validate generator_test_connection
    start_scheduler.
Let start :=
  IslamicTelegramBot.start lower bot_send_message bot_get_me
    bot_get_chat telegram_bot config_validate generator_test_connection
    start_scheduler.

Lemma grows_call A what (answer : list Event -> Res A) :
  grows (IslamicTelegramBot.call what answer).
Proof. intros w. exists [Call what]. reflexivity. Qed.

Lemma grows_effect what : grows (IslamicTelegramBot.effect what).
Proof. intros w. exists [Call what]. reflexivity. Qed.

Lemma grows_run_scheduler :
  grows (IslamicTelegramBot.run_scheduler start_scheduler).
Proof.
  intros w. exists [Call (lit "bot_handler.start_scheduler")].
  unfold IslamicTelegramBot.run_scheduler.
  destruct (start_scheduler (trace w)); reflexivity.
Qed.

Lemma grows_get_me : grows (TelegramBot.get_me bot_get_me).
Proof. intros w. exists [Call (lit "bot.get_me")]. reflexivity. Qed.

Lemma grows_get_chat : grows (TelegramBot.get_chat bot_get_chat telegram_bot).
Proof. intros w. exists [Call (lit "bot.get_chat")]. reflexivity. Qed.

Ltac grow :=
  repeat
    match goal with
    | |- grows (ret _) => apply grows_ret
    | |- grows (raise _) => apply grows_raise
    | |- grows (log _ _) => apply grows_log
    | |- grows (sleep _) => apply grows_sleep
    | |- grows (IslamicTelegramBot.call _ _) => apply grows_call
    | |- grows (IslamicTelegramBot.effect _) => apply grows_effect
    | |- grows (IslamicTelegramBot.run_scheduler _) => apply grows_run_scheduler
    | |- grows (TelegramBot.get_me _) => apply grows_get_me
    | |- grows (TelegramBot.get_chat _ _) => apply grows_get_chat
    | |- grows (TelegramBot.send_message _ _ _ _ _) =>
        apply grows_quiet, send_message_returns_quietly
    | |- grows (bind _ _) => apply grows_bind; [|intros ?]
    | |- grows (try_except _ _) => apply grows_try_except; [|intros ?]
    | |- grows (if ?c then _ else _) => destruct c
    | |- grows (match ?x with _ => _ end) => destruct x
    end.

Lemma grows_test_connection :
  grows (TelegramBot.test_connection lower bot_get_me bot_get_chat telegram_bot).
Proof. unfold TelegramBot.test_connection. grow. Qed.

(** Every round of [start] opens with the start-up line and the call of
    [config.validate], and ends without an exception. *)
Lemma start_round_begins :
  begins [Log INFO (lit "🤖 Starting Enhanced Islamic Telegram Bot...");
          Call (lit "config.validate")]
         start_round.
Proof.
  unfold start_round, IslamicTelegramBot.start_round.
  apply begins_try_except; [|intros e; grow].
  apply begins_bind; [|intros started; grow].
  unfold IslamicTelegramBot.startup.
  apply begins_log.
  intros w. unfold bind at 1. unfold IslamicTelegramBot.call at 1.
  destruct (config_validate (trace w)) as [valid|e].
  - match goal with
    | |- context [snd (?k (emit ?e w))] =>
        assert (G : grows k)
    end.
    { destruct valid; cbn [negb]; grow.
      - apply grows_test_connection.
      - unfold IslamicTelegramBot.start_bot_polling. grow. }
    destruct (G (emit (Call (lit "config.validate")) w)) as (rest & ->).
    exists rest. cbn [emit trace]. rewrite <- app_assoc. reflexivity.
  - exists []. reflexivity.
Qed.

Lemma start_round_never_raises : never_raises start_round.
Proof.
  intros w. unfold start_round, IslamicTelegramBot.start_round, try_except.
  match goal with |- context [match ?b with _ => _ end] => destruct b as [[a|e] w1] end.
  - exists a. reflexivity.
  - exists IslamicTelegramBot.Again. reflexivity.
Qed.

(** C8.  When a round of [start] has come through the start-up and the
    foreground call [start_scheduler] returns, the round logs the
    anomaly as an error, sleeps 10 s and ends without leaving the
    [while True]: [start] goes on with the next round, which raises
    nothing and opens with the start-up line and the call of
    [config.validate]. *)
Theorem start_restarts_when_scheduler_returns :
  forall w w1,
    startup w = (Ret true, w1) ->
    start_scheduler (trace w1) = IslamicTelegramBot.Returns ->
    start_round w = (Ret IslamicTelegramBot.Again, restarted w1)
    /\ actions (trace (restarted w1))
       = actions (trace w1)
           ++ [Call (lit "bot_handler.start_scheduler"); Sleep 10]
    /\ (forall rounds, start (S rounds) w = start rounds (restarted w1))
    /\ exists flow w2 rest,
         start_round (restarted w1) = (Ret flow, w2)
         /\ trace w2
            = trace (restarted w1)
                ++ [Log INFO (lit "🤖 Starting Enhanced Islamic Telegram Bot...");
                    Call (lit "config.validate")]
                ++ rest.
Proof.
  intros w w1 Hup Hret.
  assert (Hround : start_round w = (Ret IslamicTelegramBot.Again, restarted w1)).
  { unfold start_round, IslamicTelegramBot.start_round, try_except.
    unfold bind at 1. unfold startup in Hup. rewrite Hup.
    unfold bind at 1. unfold IslamicTelegramBot.run_scheduler.
    rewrite Hret. reflexivity. }
  split; [exact Hround|]. split.
  - unfold restarted. cbn [emit trace]. rewrite !actions_app.
    rewrite <- !app_assoc. reflexivity.
  - split.
    + intros rounds. unfold start. cbn [IslamicTelegramBot.start].
      unfold bind at 1. unfold start_round in Hround. rewrite Hround.
      reflexivity.
    + destruct (start_round_begins (restarted w1)) as (rest & Ht).
      destruct (start_round_never_raises (restarted w1)) as (flow & Hf).
      destruct (start_round (restarted w1)) as [r w2]; cbn [fst snd] in *.
      subst r. exists flow, w2, rest. split; [reflexivity | exact Ht].
Qed.

End Supervisor.

(** ** Instances *)

Lemma send_message_rate_limited_witness :
  exists new w',
    TelegramBot.send_message ascii_lower Sample.rate_limiting Sample.bot
      (lit "hi") 0 Sample.world0 = (Ret false, w')
    /\ extends Sample.world0 w' new
    /\ List.length (sent_texts new) = 4
    /\ actions new = try_then_sleep (lit "@channel") (lit "hi") 60 4.
Proof.
  apply (@send_message_rate_limited ascii_lower Sample.rate_limiting Sample.bot).
  intros h c t. eexists. split; [reflexivity | vm_compute; reflexivity].
Defined.

Lemma send_message_permanent_failure_witness :
  exists new w',
    TelegramBot.send_message ascii_lower Sample.blocked Sample.bot
      (lit "hi") 0 Sample.world0 = (Ret false, w')
    /\ extends Sample.world0 w' new
    /\ actions new = [ApiSend (lit "@channel") (lit "hi")]
    /\ List.length (sent_texts new) = 1
    /\ forall secs, ~ In (Sleep secs) new.
Proof.
  eapply (@send_message_permanent_failure ascii_lower Sample.blocked Sample.bot
            (lit "hi") 0 Sample.world0).
  - intros h. reflexivity.
  - vm_compute. reflexivity.
Defined.

Lemma send_message_fits_witness :
  (4096 < List.length Sample.long_message
   /\ List.length (TelegramBot.fit Sample.long_message) = 4096 - 3)
  /\ (List.length (lit "hi") <= 4096 /\ TelegramBot.fit (lit "hi") = lit "hi").
Proof.
  split.
  - destruct (send_message_fits ascii_lower Sample.delivering Sample.bot
                Sample.long_message 0 Sample.world0)
      as (b & n & new & w' & _ & _ & _ & _ & _ & _ & Hlong).
    assert (H : 4096 < List.length Sample.long_message).
    { unfold Sample.long_message. rewrite repeat_length. lia. }
    split; [exact H|]. apply Hlong in H. tauto.
  - destruct (send_message_fits ascii_lower Sample.delivering Sample.bot
                (lit "hi") 0 Sample.world0)
      as (b & n & new & w' & _ & _ & _ & _ & _ & Hshort & _).
    assert (H : List.length (lit "hi") <= 4096) by (cbn; lia).
    split; [exact H | exact (Hshort H)].
Defined.

Lemma send_formatted_content_cases_witness :
  TelegramBot.send_formatted_content ascii_lower Sample.delivering Sample.bot
    (lit "companion_story") None Sample.world0
  = (Ret false, emit (Log ERROR (lit "❌ Cannot send empty content")) Sample.world0)
  /\ TelegramBot.send_formatted_content ascii_lower Sample.delivering Sample.bot
       (lit "companion_story") (Some (lit "text")) Sample.world0
     = TelegramBot.send_message ascii_lower Sample.delivering Sample.bot
         (lit "🕌" ++ lit " <b>" ++ lit "محتوى إسلامي" ++ lit "</b>"
              ++ nl ++ nl ++ lit "text")
         0 Sample.world0.
Proof.
  split.
  - apply (send_formatted_content_cases ascii_lower Sample.delivering Sample.bot
             (lit "companion_story") None Sample.world0).
    left. reflexivity.
  - apply (send_formatted_content_cases ascii_lower Sample.delivering Sample.bot
             (lit "companion_story") (Some (lit "text")) Sample.world0).
    + reflexivity.
    + discriminate.
    + vm_compute. reflexivity.
Defined.

Lemma default_times_parse :
  forall content_type time_str,
    In (content_type, time_str) ContentScheduler.default_schedule ->
    exists at_time, Sample.parse_hhmm time_str = Ret at_time.
Proof.
  intros ct t H. unfold ContentScheduler.default_schedule in H.
  cbn [In] in H.
  repeat (destruct H as [H|H];
          [injection H as <- <-; eexists; vm_compute; reflexivity|]).
  contradiction.
Defined.

Lemma setup_schedule_empty_mapping_witness :
  exists w',
    ContentScheduler.setup_schedule Sample.parse_hhmm Sample.clock Sample.strftime
      (Some []) Sample.world0 = (Ret tt, w')
    /\ ContentScheduler.total_jobs
         (ContentScheduler.get_schedule_status Sample.strftime w') = 8
    /\ List.length (ContentScheduler.upcoming w') = 3.
Proof.
  destruct (@setup_schedule_empty_mapping Sample.parse_hhmm Sample.clock
              Sample.strftime default_times_parse Sample.world0)
    as (w' & E & _ & _ & Htotal & Hup).
  exists w'. auto.
Defined.

(** C5 as stated fails: after [setup_schedule] on the empty mapping the
    registry holds the eight default jobs and the list of next runs is not
    empty. *)
Lemma setup_schedule_empty_mapping_counterexample :
  let w' := snd (ContentScheduler.setup_schedule Sample.parse_hhmm Sample.clock
                   Sample.strftime (Some []) Sample.world0) in
  ContentScheduler.total_jobs
    (ContentScheduler.get_schedule_status Sample.strftime w') = 8
  /\ ContentScheduler.total_jobs
       (ContentScheduler.get_schedule_status Sample.strftime w') <> 0
  /\ ContentScheduler.upcoming w'
     = [ (21600%Z, lit "morning_azkar");
         (28800%Z, lit "quran_verse");
         (43200%Z, lit "daily_hadith") ]
  /\ ContentScheduler.upcoming w' <> [].
Proof.
  cbv zeta.
  split; [vm_compute; reflexivity|].
  split; [vm_compute; discriminate|].
  split; [vm_compute; reflexivity|].
  vm_compute. discriminate.
Qed.

Lemma setup_schedule_skips_malformed_witness :
  exists new w',
    ContentScheduler.setup_schedule Sample.parse_hhmm Sample.clock Sample.strftime
      (Some Sample.one_malformed) Sample.world0 = (Ret tt, w')
    /\ registered w' = [(lit "morning_azkar", 21600%Z); (lit "daily_dua", 72000%Z)]
    /\ In (failed_to_schedule (lit "quran_verse") (lit "8 o'clock")
             (Exception (lit "Invalid time format for a daily job")))
          new.
Proof.
  destruct (setup_schedule_skips_malformed Sample.parse_hhmm Sample.clock
              Sample.strftime (Some Sample.one_malformed) Sample.world0)
    as (new & w' & E & _ & Hr & Hl).
  exists new, w'. split; [exact E|]. split; [exact Hr|].
  apply Hl.
  - right. left. reflexivity.
  - reflexivity.
Defined.

Lemma run_content_now_known_types_witness :
  ContentScheduler.run_content_now ascii_lower Sample.delivering Sample.bot
    Sample.generating Sample.clock Sample.strftime (lit "friday_sermon")
    Sample.world0
  = (Ret false,
     emit (Log ERROR (lit "❌ Unknown content type: " ++ lit "friday_sermon"))
          Sample.world0)
  /\ exists w',
       ContentScheduler.run_content_now ascii_lower Sample.delivering Sample.bot
         Sample.generating Sample.clock Sample.strftime (lit "daily_dua")
         Sample.world0 = (Ret true, w')
       /\ jobs w' = jobs Sample.world0.
Proof.
  split.
  - apply (run_content_now_known_types ascii_lower Sample.delivering Sample.bot
             Sample.generating Sample.clock Sample.strftime
             (lit "friday_sermon") Sample.world0).
    vm_compute. reflexivity.
  - destruct (run_content_now_known_types ascii_lower Sample.delivering Sample.bot
                Sample.generating Sample.clock Sample.strftime
                (lit "daily_dua") Sample.world0) as [_ H].
    destruct H as (w' & _ & E & J); [vm_compute; reflexivity|].
    exists w'. auto.
Defined.

(** C6 as stated fails both ways.  With nothing registered at all,
    [run_content_now] still accepts "daily_dua", generates and returns
    [True]; and after [setup_schedule] has registered the custom type
    "friday_sermon", [run_content_now] refuses it as unknown. *)
Lemma run_content_now_counterexample :
  (jobs Sample.world0 = []
   /\ fst (ContentScheduler.run_content_now ascii_lower Sample.delivering
             Sample.bot Sample.generating Sample.clock Sample.strftime
             (lit "daily_dua") Sample.world0) = Ret true
   /\ In (Generate (lit "daily_dua"))
         (trace (snd (ContentScheduler.run_content_now ascii_lower
                        Sample.delivering Sample.bot Sample.generating
                        Sample.clock Sample.strftime
                        (lit "daily_dua") Sample.world0))))
  /\ (let w1 := snd (ContentScheduler.setup_schedule Sample.parse_hhmm
                       Sample.clock Sample.strftime (Some Sample.custom)
                       Sample.world0) in
      map job_content_type (jobs w1) = [lit "friday_sermon"]
      /\ ContentScheduler.run_content_now ascii_lower Sample.delivering
           Sample.bot Sample.generating Sample.clock Sample.strftime
           (lit "friday_sermon") w1
         = (Ret false,
            emit (Log ERROR (lit "❌ Unknown content type: " ++ lit "friday_sermon"))
                 w1)).
Proof.
  split; [split; [reflexivity|split]|split].
  - vm_compute. reflexivity.
  - vm_compute. right. right. left. reflexivity.
  - vm_compute. reflexivity.
  - vm_compute. reflexivity.
Qed.

Lemma start_restarts_when_scheduler_returns_witness :
  let w1 := snd (IslamicTelegramBot.startup ascii_lower Sample.delivering
                   Sample.get_me Sample.get_chat Sample.bot Sample.valid
                   Sample.valid Sample.world0) in
  IslamicTelegramBot.start_round ascii_lower Sample.delivering Sample.get_me
    Sample.get_chat Sample.bot Sample.valid Sample.valid Sample.returning
    Sample.world0
  = (Ret IslamicTelegramBot.Again, restarted w1).
Proof.
  cbv zeta.
  apply (@start_restarts_when_scheduler_returns ascii_lower Sample.delivering
           Sample.get_me Sample.get_chat Sample.bot Sample.valid Sample.valid
           Sample.returning Sample.world0).
  - vm_compute. reflexivity.
  - reflexivity.
Defined.

(* ===================================================================== *)
(** * Further properties                                                  *)
(* ===================================================================== *)

Lemma sleeps_app a b : sleeps (a ++ b) = sleeps a ++ sleeps b.
Proof. apply flat_map_app. Qed.

Lemma slept_app a b : slept (a ++ b) = slept a + slept b.
Proof. unfold slept. rewrite sleeps_app. apply list_sum_app. Qed.

Lemma generated_app a b : generated (a ++ b) = generated a ++ generated b.
Proof. apply flat_map_app. Qed.

Lemma sleeps_actions tr : sleeps (actions tr) = sleeps tr.
Proof.
  induction tr as [|e tr IH]; [reflexivity|].
  destruct e; cbn [actions filter]; fold (actions tr);
    change (sleeps (?x :: ?l)) with (sleeps [x] ++ sleeps l);
    rewrite IH; reflexivity.
Qed.

Lemma sent_texts_try_sleep_try c text secs n :
  sent_texts (try_sleep_try c text secs n) = repeat text (S n).
Proof.
  assert (H : sent_texts (List.concat (repeat [Sleep secs; ApiSend c text] n))
              = repeat text n).
  { induction n as [|n IH]; [reflexivity|].
    cbn [repeat List.concat]. rewrite sent_texts_app, IH. reflexivity. }
  unfold try_sleep_try.
  change (ApiSend c text :: ?l) with ([ApiSend c text] ++ l).
  rewrite sent_texts_app, H. reflexivity.
Qed.

Lemma sleeps_try_sleep_try c text secs n :
  sleeps (try_sleep_try c text secs n) = repeat secs n.
Proof.
  assert (H : sleeps (List.concat (repeat [Sleep secs; ApiSend c text] n))
              = repeat secs n).
  { induction n as [|n IH]; [reflexivity|].
    cbn [repeat List.concat]. rewrite sleeps_app, IH. reflexivity. }
  unfold try_sleep_try.
  change (ApiSend c text :: ?l) with ([ApiSend c text] ++ l).
  rewrite sleeps_app, H. reflexivity.
Qed.

Lemma sent_texts_snoc_log h lvl msg :
  sent_texts (h ++ [Log lvl msg]) = sent_texts h.
Proof. rewrite sent_texts_app. apply app_nil_r. Qed.

Lemma sent_texts_snoc_sleep h secs :
  sent_texts (h ++ [Sleep secs]) = sent_texts h.
Proof. rewrite sent_texts_app. apply app_nil_r. Qed.

Lemma sent_texts_snoc_send h c text :
  sent_texts (h ++ [ApiSend c text]) = sent_texts h ++ [text].
Proof. rewrite sent_texts_app. reflexivity. Qed.

Section SendMessageMore.

Variable lower : str -> str.
Variable bot_send_message : list Event -> str -> str -> Res unit.
Variable self : TelegramBot.t.

Let send_message := TelegramBot.send_message lower bot_send_message self.
Let chat := TelegramBot.channel_id self.
Let attempts := TelegramBot.retry_attempts self.
Let delay := TelegramBot.retry_delay self.

Ltac step :=
  unfold send_message;
  rewrite TelegramBot.send_message_equation_1;
  cbv beta iota zeta
      delta [try_except bind log sleep when ret TelegramBot.api_send emit];
  cbn [trace jobs scheduled_jobs next_id].

Ltac settle_extends :=
  unfold extends; cbn [trace jobs scheduled_jobs next_id];
  repeat rewrite <- app_assoc; reflexivity.

Lemma transient_from :
  always_transient lower bot_send_message ->
  forall k retry_count message w,
    attempts - retry_count = k ->
    exists new w',
      send_message message retry_count w = (Ret false, w')
      /\ extends w w' new
      /\ actions new = try_sleep_try chat (TelegramBot.fit message) delay k.
Proof.
  intros Htr.
  induction k as [k IH] using lt_wf_ind; intros rc message w Hk.
  step. fold chat.
  destruct (TelegramBot.oversized message);
    (match goal with
     | |- context [bot_send_message ?h ?c ?t] =>
         destruct (Htr h c t) as (e & -> & [-> | ->])
     end;
     (destruct (lt_dec rc (TelegramBot.retry_attempts self)) as [Hlt|Hge];
      [ match goal with
        | |- context [TelegramBot.send_message _ _ _ ?m ?r ?W] =>
            destruct (IH (attempts - r) ltac:(unfold attempts in Hk |- *; lia)
                         r m W eq_refl) as (new & w' & E & X & A);
            unfold send_message in E; rewrite E; do 2 eexists;
            split; [reflexivity|]; split;
            [unfold extends in X |- *;
             cbn [trace jobs scheduled_jobs next_id] in X |- *;
             rewrite X; repeat rewrite <- app_assoc; reflexivity|];
            repeat rewrite actions_app; rewrite A, fit_fit;
            replace k with (S (attempts - r))
              by (unfold attempts in Hk |- *; lia);
            reflexivity
        end
      | do 2 eexists; split; [reflexivity|]; split; [settle_extends|];
        replace k with 0 by (unfold attempts in Hk |- *; lia); reflexivity ])).
Qed.

(** X1.  When the client answers every send with a timeout or with an
    unclassified API error, [send_message] returns [False] after
    [1 + retry_attempts] tries with a sleep of [retry_delay] between two
    tries and none after the last: [retry_attempts] sleeps in all. *)
Theorem send_message_transient_failures :
  always_transient lower bot_send_message ->
  forall message w,
  exists new w',
    send_message message 0 w = (Ret false, w')
    /\ extends w w' new
    /\ actions new = try_sleep_try chat (TelegramBot.fit message) delay attempts
    /\ List.length (sent_texts new) = 1 + attempts
    /\ sleeps new = repeat delay attempts.
Proof.
  intros Htr message w.
  destruct (transient_from Htr 0 message w eq_refl) as (new & w' & E & X & A).
  rewrite Nat.sub_0_r in A.
  exists new, w'. split; [exact E|]. split; [exact X|]. split; [exact A|].
  rewrite <- sent_texts_actions, <- sleeps_actions, A.
  rewrite sent_texts_try_sleep_try, sleeps_try_sleep_try, repeat_length.
  split; reflexivity.
Qed.

(** X2.  When the send raises something that is not an
    [ApiTelegramException], [send_message] logs it, tries once, does not
    sleep and returns [False]. *)
Theorem send_message_unexpected_error :
  forall message retry_count w text,
    (forall h, bot_send_message h chat (TelegramBot.fit message)
               = Raise (Exception text)) ->
    exists new w',
      send_message message retry_count w = (Ret false, w')
      /\ extends w w' new
      /\ actions new = [ApiSend chat (TelegramBot.fit message)]
      /\ In (Log ERROR (lit "❌ Unexpected error while sending message: " ++ text))
            new.
Proof.
  intros message rc w text Hfail.
  step. fold chat.
  destruct (TelegramBot.oversized message);
    rewrite Hfail;
    (do 2 eexists; split; [reflexivity|]; split; [settle_extends|];
     split; [reflexivity|]; cbn; tauto).
Qed.

Lemma recovers_from :
  forall e,
    TelegramBot.classify (lower e) = TelegramBot.TimedOut
    \/ TelegramBot.classify (lower e) = TelegramBot.Other ->
    forall k first retry_count message w,
      List.length (sent_texts (trace w)) = first ->
      fails_then_delivers bot_send_message first k e ->
      k <= attempts - retry_count ->
      exists new w',
        send_message message retry_count w = (Ret true, w')
        /\ extends w w' new
        /\ actions new = try_sleep_try chat (TelegramBot.fit message) delay k.
Proof.
  intros e Hclass.
  induction k as [|k IH]; intros first rc message w Hfirst Hftd Hk.
  - step. fold chat.
    destruct (TelegramBot.oversized message);
      (rewrite Hftd; cbn [trace jobs scheduled_jobs next_id];
       repeat rewrite sent_texts_snoc_log;
       rewrite Hfirst, Nat.add_0_r, Nat.ltb_irrefl;
       do 2 eexists; split; [reflexivity|]; split; [settle_extends|];
       reflexivity).
  - assert (Hlt : rc < TelegramBot.retry_attempts self)
      by (unfold attempts in Hk; lia).
    assert (Hnext : fails_then_delivers bot_send_message (S first) k e).
    { intros h c t. rewrite Hftd.
      replace (first + S k) with (S first + k) by lia. reflexivity. }
    step. fold chat.
    destruct (TelegramBot.oversized message);
      (rewrite Hftd; cbn [trace jobs scheduled_jobs next_id];
       repeat rewrite sent_texts_snoc_log;
       rewrite Hfirst;
       replace (first <? first + S k) with true
         by (symmetry; apply Nat.ltb_lt; lia);
       destruct Hclass as [-> | ->];
       (destruct (lt_dec rc (TelegramBot.retry_attempts self)) as [_|Hge];
        [|contradiction];
        match goal with
        | |- context [TelegramBot.send_message _ _ _ ?m ?r ?W] =>
            destruct (IH (S first) r m W) as (new & w' & E & X & A);
            [ cbn [trace];
              repeat first [ rewrite sent_texts_snoc_log
                           | rewrite sent_texts_snoc_sleep ];
              rewrite sent_texts_snoc_send;
              repeat rewrite sent_texts_snoc_log;
              rewrite length_app, Hfirst; cbn [List.length]; lia
            | exact Hnext
            | unfold attempts in Hk |- *; lia
            | unfold send_message in E; rewrite E; do 2 eexists;
              split; [reflexivity|]; split;
              [unfold extends in X |- *;
               cbn [trace jobs scheduled_jobs next_id] in X |- *;
               rewrite X; repeat rewrite <- app_assoc; reflexivity|];
              repeat rewrite actions_app; rewrite A, fit_fit; reflexivity ]
        end)).
Qed.

(** X3.  When the first [failures] sends time out (or fail with an
    unclassified API error) and the next one is delivered, with
    [failures <= retry_attempts], [send_message] returns [True] after
    [failures + 1] tries of the same text and [failures] sleeps of
    [retry_delay]. *)
Theorem send_message_recovers :
  forall e failures message w,
    TelegramBot.classify (lower e) = TelegramBot.TimedOut
    \/ TelegramBot.classify (lower e) = TelegramBot.Other ->
    fails_then_delivers bot_send_message
      (List.length (sent_texts (trace w))) failures e ->
    failures <= attempts ->
    exists new w',
      send_message message 0 w = (Ret true, w')
      /\ extends w w' new
      /\ actions new
         = try_sleep_try chat (TelegramBot.fit message) delay failures.
Proof.
  intros e k message w Hclass Hftd Hk.
  apply (recovers_from Hclass (first := List.length (sent_texts (trace w))));
    [reflexivity | exact Hftd | lia].
Qed.

Ltac count_sleeps :=
  repeat rewrite slept_app;
  cbv [slept sleeps flat_map Datatypes.app list_sum fold_right].

Ltac done_here :=
  exists 1; do 2 eexists; split; [reflexivity|]; split; [settle_extends|];
  split; [reflexivity|]; split; [lia|];
  count_sleeps; unfold delay; nia.

Ltac again IH Hk :=
  match goal with
  | |- context [TelegramBot.send_message _ _ _ ?m ?r ?W] =>
      let b := fresh "b" in let n := fresh "n" in
      let new := fresh "new" in let w' := fresh "w'" in
      let E := fresh "E" in let X := fresh "X" in
      let T := fresh "T" in let B := fresh "B" in let Z := fresh "Z" in
      destruct (IH (attempts - r) ltac:(unfold attempts in Hk |- *; lia)
                   r m W eq_refl)
        as (b & n & new & w' & E & X & T & B & Z);
      unfold send_message in E; rewrite E; exists b, (S n); do 2 eexists;
      split; [reflexivity|]; split;
      [unfold extends in X |- *;
       cbn [trace jobs scheduled_jobs next_id] in X |- *;
       rewrite X; repeat rewrite <- app_assoc; reflexivity|];
      split;
      [repeat rewrite sent_texts_app; repeat rewrite length_app;
       rewrite T; reflexivity|];
      split; [unfold attempts in Hk, B |- *; lia|];
      repeat rewrite slept_app;
      revert Z; generalize (slept new); intros s0 Z;
      cbv [slept sleeps flat_map Datatypes.app list_sum fold_right];
      match type of Hk with
      | _ = ?k =>
          replace k with (S (attempts - r))
            by (unfold attempts in Hk |- *; lia)
      end;
      unfold delay in Z |- *; nia
  end.

Lemma bounded_from :
  forall k retry_count message w,
    attempts - retry_count = k ->
    exists b n new w',
      send_message message retry_count w = (Ret b, w')
      /\ extends w w' new
      /\ List.length (sent_texts new) = n
      /\ 1 <= n <= 1 + k
      /\ slept new <= (1 + k) * Nat.max 60 delay.
Proof.
  induction k as [k IH] using lt_wf_ind; intros rc message w Hk.
  step.
  destruct (TelegramBot.oversized message);
    (destruct (bot_send_message _ _ _) as [[]|[text|text]];
     [ eexists; done_here
     | destruct (TelegramBot.classify (lower text));
       [ destruct (lt_dec rc (TelegramBot.retry_attempts self));
         [ again IH Hk | eexists; done_here ]
       | destruct (lt_dec rc (TelegramBot.retry_attempts self));
         [ again IH Hk | eexists; done_here ]
       | eexists; done_here
       | destruct (lt_dec rc (TelegramBot.retry_attempts self));
         [ again IH Hk | eexists; done_here ] ]
     | eexists; done_here ]).
Qed.

(** X4.  Whatever the client does, [send_message] returns a boolean
    without raising, leaves the registry alone, tries at least once and
    at most once more than the retries it has left, and sleeps at most
    that many times the longer of 60 s and [retry_delay]. *)
Theorem send_message_bounded :
  forall message retry_count w,
  exists b new w',
    send_message message retry_count w = (Ret b, w')
    /\ extends w w' new
    /\ 1 <= List.length (sent_texts new) <= 1 + (attempts - retry_count)
    /\ slept new <= (1 + (attempts - retry_count)) * Nat.max 60 delay.
Proof.
  intros message rc w.
  destruct (bounded_from rc message w eq_refl)
    as (b & n & new & w' & E & X & T & B & Z).
  exists b, new, w'. rewrite T. auto.
Qed.

End SendMessageMore.

Section Connection.

Variable lower : str -> str.
Variable bot_get_me : list Event -> Res str.
Variable bot_get_chat : list Event -> str -> Res (option str).
Variable self : TelegramBot.t.

Let test_connection :=
  TelegramBot.test_connection lower bot_get_me bot_get_chat self.
Let get_bot_info := TelegramBot.get_bot_info bot_get_me.

(** X5.  [test_connection] never raises and leaves the registry alone.
    It returns [True] exactly when both [get_me] and [get_chat] return;
    when [get_me] does not return, [get_chat] is not called. *)
Theorem test_connection_result :
  forall w,
  let h := trace w ++ [Log INFO (lit "🔍 Testing Telegram bot connection...")] in
  exists b new,
    test_connection w
    = (Ret b, mkWorld (trace w ++ new) (jobs w) (scheduled_jobs w) (next_id w))
    /\ (b = true <->
        exists username title,
          bot_get_me h = Ret username
          /\ bot_get_chat
               (h ++ [Call (lit "bot.get_me");
                      Log INFO (lit "✅ Connected to Telegram bot: @" ++ username)])
               (TelegramBot.channel_id self) = Ret title)
    /\ ((forall username, bot_get_me h <> Ret username) ->
        ~ In (Call (lit "bot.get_chat")) new).
Proof.
  intros w h.
  unfold test_connection, TelegramBot.test_connection.
  cbv beta iota zeta
      delta [try_except bind log ret raise emit
             TelegramBot.get_me TelegramBot.get_chat].
  cbn [trace jobs scheduled_jobs next_id]. fold h.
  destruct (bot_get_me h) as [username|[text|text]] eqn:Hme.
  - cbn [trace jobs scheduled_jobs next_id].
    repeat rewrite <- app_assoc. cbn [Datatypes.app].
    fold h.
    replace (trace w ++ Log INFO (lit "🔍 Testing Telegram bot connection...")
               :: Call (lit "bot.get_me")
               :: [Log INFO (lit "✅ Connected to Telegram bot: @" ++ username)])
      with (h ++ [Call (lit "bot.get_me");
                  Log INFO (lit "✅ Connected to Telegram bot: @" ++ username)])
      by (unfold h; rewrite <- app_assoc; reflexivity).
    destruct (bot_get_chat _ _) as [title|[text|text]] eqn:Hchat.
    + do 2 eexists. split; [unfold h; cbn [trace jobs scheduled_jobs next_id];
              repeat rewrite <- app_assoc; reflexivity|].
      split.
      * split; [intros _; exists username, title; auto | reflexivity].
      * intros Hno. exfalso. exact (Hno username eq_refl).
    + destruct (contains (lit "chat not found") (lower text));
        [|destruct (contains (lit "bot was blocked") (lower text))];
        (do 2 eexists; split; [unfold h; cbn [trace jobs scheduled_jobs next_id];
              repeat rewrite <- app_assoc; reflexivity|];
         split;
         [ split; [discriminate|];
           intros (u & t & Hu & Ht); injection Hu as <-; congruence
         | intros Hno; exfalso; exact (Hno username eq_refl) ]).
    + do 2 eexists. split; [unfold h; cbn [trace jobs scheduled_jobs next_id];
              repeat rewrite <- app_assoc; reflexivity|].
      split.
      * split; [discriminate|].
        intros (u & t & Hu & Ht). injection Hu as <-. congruence.
      * intros Hno. exfalso. exact (Hno username eq_refl).
  - do 2 eexists. split; [unfold h; cbn [trace jobs scheduled_jobs next_id];
              repeat rewrite <- app_assoc; reflexivity|].
    split.
    + split; [discriminate|]. intros (u & t & Hu & _). discriminate Hu.
    + intros _ Hin. cbn [In Datatypes.app] in Hin.
      repeat destruct Hin as [Hin|Hin]; try discriminate Hin; exact Hin.
  - do 2 eexists. split; [unfold h; cbn [trace jobs scheduled_jobs next_id];
              repeat rewrite <- app_assoc; reflexivity|].
    split.
    + split; [discriminate|]. intros (u & t & Hu & _). discriminate Hu.
    + intros _ Hin. cbn [In Datatypes.app] in Hin.
      repeat destruct Hin as [Hin|Hin]; try discriminate Hin; exact Hin.
Qed.

(** X6.  [get_bot_info] catches [ApiTelegramException] only: it raises
    exactly when [get_me] raises another exception, and raises that one;
    on an API error it returns [None], otherwise what [get_me] gave. *)
Theorem get_bot_info_raises :
  forall w,
    (forall e, fst (get_bot_info w) = Raise e ->
               exists text, e = Exception text
                            /\ bot_get_me (trace w) = Raise (Exception text))
    /\ (forall text, bot_get_me (trace w) = Raise (Exception text) ->
                     fst (get_bot_info w) = Raise (Exception text))
    /\ (forall text, bot_get_me (trace w) = Raise (ApiTelegramException text) ->
                     fst (get_bot_info w) = Ret None)
    /\ (forall info, bot_get_me (trace w) = Ret info ->
                     fst (get_bot_info w) = Ret (Some info)).
Proof.
  intros w. unfold get_bot_info, TelegramBot.get_bot_info.
  cbv beta iota zeta
      delta [try_except bind log ret raise emit TelegramBot.get_me].
  destruct (bot_get_me (trace w)) as [info|[text|text]]; cbn [fst].
  - repeat split; try discriminate. intros i H. congruence.
  - repeat split; try discriminate. 
  - repeat split; try discriminate.
    + intros e H. injection H as <-. exists text. auto.
    + intros t H. congruence.
Qed.

End Connection.

(** ** The header of a formatted message *)

Lemma header_short content_type : List.length (header content_type) <= 31.
Proof.
  unfold header, TelegramBot._get_content_title.
  assert (He : List.length (get TelegramBot.emoji_map content_type (lit "🕌")) <= 1).
  { unfold TelegramBot.emoji_map. cbn [get].
    repeat match goal with
           | |- context [if ?c then _ else _] => destruct c
           end; vm_compute; lia. }
  assert (Ht : List.length
                 (get TelegramBot.titles content_type (lit "محتوى إسلامي")) <= 20).
  { unfold TelegramBot.titles. cbn [get].
    repeat match goal with
           | |- context [if ?c then _ else _] => destruct c
           end; vm_compute; lia. }
  repeat rewrite length_app.
  change (List.length (lit " <b>")) with 4.
  change (List.length (lit "</b>")) with 4.
  change (List.length nl) with 1. lia.
Qed.

(** X7.  The size guard of [send_message] never cuts into the header
    [send_formatted_content] writes: the fitted message is the whole
    header followed by the content, or by the content cut to what is left
    of the 4090 characters and "...". *)
Theorem fit_keeps_header :
  forall content_type content,
    TelegramBot.fit (header content_type ++ content)
    = header content_type
        ++ (if 4096 <? List.length (header content_type) + List.length content
            then firstn (4090 - List.length (header content_type)) content
                   ++ lit "..."
            else content).
Proof.
  intros ct content. pose proof (header_short ct) as Hh.
  unfold TelegramBot.fit, TelegramBot.oversized.
  rewrite length_app.
  destruct (4096 <? List.length (header ct) + List.length content);
    [|reflexivity].
  rewrite firstn_app, firstn_all2 by lia.
  rewrite <- app_assoc. reflexivity.
Qed.

Section Delivery.

Variable lower : str -> str.
Variable bot_send_message : list Event -> str -> str -> Res unit.
Variable self : TelegramBot.t.

Let send_message := TelegramBot.send_message lower bot_send_message self.

Ltac step :=
  unfold send_message;
  rewrite TelegramBot.send_message_equation_1;
  cbv beta iota zeta
      delta [try_except bind log sleep when ret TelegramBot.api_send emit];
  cbn [trace jobs scheduled_jobs next_id].

Ltac all_delivery :=
  repeat first
    [ apply Forall_nil
    | apply Forall_cons; [exact I|]
    | apply Forall_app; split
    | assumption ].

(** [send_message] only logs, sleeps and sends: it never asks the
    generator for anything. *)
Lemma send_message_events :
  forall k retry_count message w,
    TelegramBot.retry_attempts self - retry_count = k ->
    exists b new w',
      send_message message retry_count w = (Ret b, w')
      /\ extends w w' new
      /\ Forall delivery_event new.
Proof.
  induction k as [k IH] using lt_wf_ind; intros rc message w Hk.
  step.
  destruct (TelegramBot.oversized message);
    (destruct (bot_send_message _ _ _) as [[]|[text|text]];
     [ idtac
     | destruct (TelegramBot.classify (lower text));
       [ destruct (lt_dec rc (TelegramBot.retry_attempts self))
       | destruct (lt_dec rc (TelegramBot.retry_attempts self))
       | idtac
       | destruct (lt_dec rc (TelegramBot.retry_attempts self)) ]
     | idtac ]);
    first
      [ match goal with
        | |- context [TelegramBot.send_message _ _ _ ?m ?r ?W] =>
            destruct (IH (TelegramBot.retry_attempts self - r) ltac:(lia)
                         r m W eq_refl) as (b & new & w' & E & X & F);
            unfold send_message in E; rewrite E; exists b; do 2 eexists;
            split; [reflexivity|]; split;
            [unfold extends in X |- *;
             cbn [trace jobs scheduled_jobs next_id] in X |- *;
             rewrite X; repeat rewrite <- app_assoc; reflexivity|];
            all_delivery
        end
      | do 3 eexists; split; [reflexivity|]; split;
        [unfold extends; cbn [trace jobs scheduled_jobs next_id];
         repeat rewrite <- app_assoc; reflexivity|];
        all_delivery ].
Qed.

End Delivery.

Lemma generated_delivery new : Forall delivery_event new -> generated new = [].
Proof.
  induction 1 as [|e l He _ IH]; [reflexivity|].
  destruct e; try contradiction; exact IH.
Qed.

Section GenerateAndSendMore.

Variable lower : str -> str.
Variable bot_send_message : list Event -> str -> str -> Res unit.
Variable telegram_bot : TelegramBot.t.
Variable generate_content : list Event -> str -> Res (option str).
Variable datetime_now : list Event -> Z.
Variable strftime : str -> Z -> str.

Let _generate_and_send_content :=
  ContentScheduler._generate_and_send_content
    lower bot_send_message telegram_bot generate_content datetime_now strftime.
Let test_content_type := ContentScheduler.test_content_type generate_content.
Let test_all_content_types :=
  ContentScheduler.test_all_content_types generate_content.

Ltac run :=
  cbv beta iota zeta
      delta [try_except bind log sleep when ret emit
             ContentScheduler.now ContentScheduler.generate];
  cbn [trace jobs scheduled_jobs next_id].

(** X8.  [_generate_and_send_content] asks the generator exactly once,
    whatever the client does: retries never regenerate.  Nothing is sent
    exactly when the generator gave no content ([None], empty text or an
    exception); every text that is sent is the fitted header and content
    of what the generator gave. *)
Theorem generate_and_send_content_effects :
  forall content_type w,
  let h := trace w
             ++ [Log INFO (lit "⏰ " ++ strftime (lit "%H:%M") (datetime_now (trace w))
                           ++ lit " - Executing scheduled task: " ++ content_type)] in
  exists new,
    _generate_and_send_content content_type w
    = (Ret tt, mkWorld (trace w ++ new) (jobs w) (scheduled_jobs w) (next_id w))
    /\ generated new = [content_type]
    /\ (sent_texts new = [] <-> usable (generate_content h content_type) = false)
    /\ (forall text,
           In text (sent_texts new) ->
           exists content,
             generate_content h content_type = Ret (Some content)
             /\ text = TelegramBot.fit (header content_type ++ content)).
Proof.
  intros ct w h.
  unfold _generate_and_send_content, ContentScheduler._generate_and_send_content.
  run. fold h.
  assert (Hquiet :
            forall lvl msg,
            exists new,
              (Ret tt,
               mkWorld ((h ++ [Generate ct]) ++ [Log lvl msg]) (jobs w)
                       (scheduled_jobs w) (next_id w))
              = (Ret tt, mkWorld (trace w ++ new) (jobs w) (scheduled_jobs w)
                                 (next_id w))
              /\ generated new = [ct]
              /\ sent_texts new = []).
  { intros lvl msg. eexists. split.
    - unfold h. repeat rewrite <- app_assoc. reflexivity.
    - split; reflexivity. }
  destruct (generate_content h ct) as [[[|c content]|]|e] eqn:Hgen;
    cbn [trace jobs scheduled_jobs next_id];
    try (match goal with
         | |- context [Log ?lvl ?msg :: nil] =>
             destruct (Hquiet lvl msg) as (new & Hw & Hg & Hs)
         end;
         exists new; split; [exact Hw|]; split; [exact Hg|]; split;
         [ split; [reflexivity | intros _; exact Hs]
         | rewrite Hs; intros text [] ]).
  unfold TelegramBot.send_formatted_content.
  match goal with
  | |- context [TelegramBot.send_message _ _ _ ?m ?r ?W] =>
      destruct (@send_message_runs lower bot_send_message telegram_bot _ r m W
                  eq_refl)
        as (b & n & new & w' & E & X & T & B & _);
      destruct (@send_message_events lower bot_send_message telegram_bot _ r m W
                  eq_refl)
        as (b' & new' & w'' & E' & X' & F);
      replace (get TelegramBot.emoji_map ct (lit "🕌") ++ lit " <b>"
                 ++ TelegramBot._get_content_title ct ++ lit "</b>" ++ nl ++ nl
                 ++ c :: content)
        with (header ct ++ c :: content) in *
        by (unfold header; repeat rewrite <- app_assoc; reflexivity)
  end.
  rewrite E in E'. injection E' as <- <-.
  unfold extends in X, X'. cbn [trace jobs scheduled_jobs next_id] in X, X'.
  rewrite X in X'. injection X' as Hsame. apply app_inv_head in Hsame. subst new'.
  rewrite E, X.
  assert (Hg : generated new = []) by (apply generated_delivery, F).
  destruct b;
    (eexists; split;
     [cbn [trace jobs scheduled_jobs next_id]; unfold h;
      repeat rewrite <- app_assoc; reflexivity|];
     split;
     [ repeat rewrite generated_app; rewrite Hg; reflexivity |];
     split;
     [ repeat rewrite sent_texts_app; rewrite T;
       destruct n; [lia|]; split; discriminate
     | intros text Hin; exists (c :: content); split; [reflexivity|];
       repeat rewrite sent_texts_app in Hin; rewrite T in Hin;
       cbn [sent_texts flat_map Datatypes.app] in Hin;
       rewrite app_nil_r in Hin; apply repeat_spec in Hin; exact Hin ]).
Qed.

Lemma test_content_types types :
  forall w,
  exists r new n,
    for_each types test_content_type w
    = (r, mkWorld (trace w ++ new) (jobs w) (scheduled_jobs w) (next_id w))
    /\ sent_texts new = []
    /\ generated new = firstn n types
    /\ (r = Ret tt -> n = List.length types)
    /\ (forall e, r = Raise e ->
                  exists h asked content_type,
                    generate_content h content_type = Raise e
                    /\ generated new = asked ++ [content_type])
    /\ ((forall h content_type, exists content,
            generate_content h content_type = Ret content) ->
        r = Ret tt)
    /\ (forall pre bad post e,
          types = pre ++ bad :: post ->
          (forall h content_type, In content_type pre ->
             exists content, generate_content h content_type = Ret content) ->
          (forall h, generate_content h bad = Raise e) ->
          r = Raise e /\ generated new = pre ++ [bad]).
Proof.
  induction types as [|ct types IH]; intros w.
  - exists (Ret tt), [], 0. cbn [for_each ret]. rewrite app_nil_r.
    destruct w. repeat split; try reflexivity; try discriminate;
      destruct pre; discriminate.
  - cbn [for_each]. unfold bind at 1.
    unfold test_content_type at 1, ContentScheduler.test_content_type.
    run.
    destruct (generate_content _ ct) as [content|e] eqn:Hgen.
    + destruct content as [[|c text]|];
        (match goal with
         | |- context [for_each types test_content_type ?W] =>
             destruct (IH W)
               as (r & new & n & E & Hs & Hg & Hn & He & Hok & Hstop)
         end;
         rewrite E; cbn [trace jobs scheduled_jobs next_id];
         exists r; eexists; exists (S n);
         split; [repeat rewrite <- app_assoc; reflexivity|];
         split; [repeat rewrite sent_texts_app; rewrite Hs; reflexivity|];
         split; [repeat rewrite generated_app; rewrite Hg; reflexivity|];
         split; [intros Hr; cbn [List.length]; f_equal; exact (Hn Hr)|];
         split;
         [ intros e Hr; destruct (He e Hr) as (h & asked & bad & Hbad & Hasked);
           exists h, (ct :: asked), bad; split; [exact Hbad|];
           repeat rewrite generated_app; rewrite Hasked; reflexivity |];
         split; [exact Hok|];
         intros pre bad post e Htypes Hpre Hbad;
         destruct pre as [|p pre]; cbn [Datatypes.app] in Htypes;
         injection Htypes as Hhead Htail;
         [ subst bad; rewrite Hbad in Hgen; discriminate Hgen |];
         destruct (Hstop pre bad post e Htail
                     (fun h content_type Hin => Hpre h content_type (or_intror Hin))
                     Hbad) as [Hr Hasked];
         split; [exact Hr|];
         repeat rewrite generated_app; rewrite Hasked; subst p; reflexivity).
    + exists (Raise e). eexists. exists 1.
      split; [repeat rewrite <- app_assoc; reflexivity|].
      split; [reflexivity|]. split; [reflexivity|].
      split; [discriminate|]. split; [|split].
      * intros e' H. injection H as <-. eexists _, [], ct.
        split; [exact Hgen | reflexivity].
      * intros Hok. destruct (Hok (trace w ++ [Log INFO (lit "Testing " ++ ct ++ lit "...")]) ct)
          as (c & Hc).
        rewrite Hc in Hgen. discriminate.
      * intros pre bad post e' Htypes Hpre Hbad.
        destruct pre as [|p pre]; cbn [Datatypes.app] in Htypes;
          injection Htypes as Hhead Htail.
        -- subst bad. rewrite Hbad in Hgen. injection Hgen as <-.
           split; reflexivity.
        -- subst p. destruct (Hpre (trace w ++ [Log INFO (lit "Testing " ++ ct ++ lit "...")])
                                ct (or_introl eq_refl)) as (c & Hc).
           rewrite Hc in Hgen. discriminate.
Qed.

(** X9.  [test_all_content_types] sends nothing to Telegram and asks the
    generator for the default content types in the order of
    [default_schedule].  There is no [try] around the generator: when the
    generator raises on a content type and has answered the ones before
    it, the call raises that exception and the types after it are never
    asked for; whenever the call raises, the exception is the
    generator's, on the last type asked for.  With a generator that
    raises nothing it asks for all eight and returns. *)
Theorem test_all_content_types_effects :
  forall w,
  exists r new n,
    test_all_content_types w
    = (r, mkWorld (trace w ++ new) (jobs w) (scheduled_jobs w) (next_id w))
    /\ sent_texts new = []
    /\ generated new = firstn n (map fst ContentScheduler.default_schedule)
    /\ (forall e, r = Raise e ->
                  exists h asked content_type,
                    generate_content h content_type = Raise e
                    /\ generated new = asked ++ [content_type])
    /\ ((forall h content_type, exists content,
            generate_content h content_type = Ret content) ->
        r = Ret tt
        /\ generated new = map fst ContentScheduler.default_schedule)
    /\ (forall pre bad post e,
          map fst ContentScheduler.default_schedule = pre ++ bad :: post ->
          (forall h content_type, In content_type pre ->
             exists content, generate_content h content_type = Ret content) ->
          (forall h, generate_content h bad = Raise e) ->
          r = Raise e /\ generated new = pre ++ [bad]).
Proof.
  intros w.
  unfold test_all_content_types, ContentScheduler.test_all_content_types.
  unfold bind at 1. unfold log at 1. unfold bind at 1.
  fold test_content_type.
  match goal with
  | |- context [for_each ?types test_content_type ?W] =>
      destruct (test_content_types types W)
        as (r & new & n & E & Hs & Hg & Hn & He & Hok & Hstop)
  end.
  rewrite E. cbn [trace jobs scheduled_jobs next_id emit].
  destruct r as [[]|e].
  - unfold log, emit. cbn [trace jobs scheduled_jobs next_id].
    exists (Ret tt). eexists. exists n.
    split; [repeat rewrite <- app_assoc; reflexivity|].
    split; [repeat rewrite sent_texts_app; rewrite Hs; reflexivity|].
    split; [repeat rewrite generated_app; rewrite Hg; cbn [generated flat_map Datatypes.app];
            rewrite app_nil_r; reflexivity|].
    split; [discriminate|].
    split.
    + intros _. split; [reflexivity|].
      repeat rewrite generated_app. rewrite Hg, (Hn eq_refl), firstn_all.
      cbn [generated flat_map Datatypes.app]. rewrite app_nil_r. reflexivity.
    + intros pre bad post e Htypes Hpre Hbad.
      destruct (Hstop pre bad post e Htypes Hpre Hbad) as [Hr _].
      discriminate Hr.
  - exists (Raise e). eexists. exists n.
    split; [repeat rewrite <- app_assoc; reflexivity|].
    split; [repeat rewrite sent_texts_app; rewrite Hs; reflexivity|].
    split; [repeat rewrite generated_app; rewrite Hg; reflexivity|].
    split.
    { intros e' Hr. destruct (He e' Hr) as (h & asked & bad & Hbad & Hasked).
      exists h, asked, bad. split; [exact Hbad|].
      repeat rewrite generated_app. rewrite Hasked. reflexivity. }
    split.
    + intros Hall. specialize (Hok Hall). discriminate Hok.
    + intros pre bad post e' Htypes Hpre Hbad.
      destruct (Hstop pre bad post e' Htypes Hpre Hbad) as [Hr Hasked].
      split; [exact Hr|].
      repeat rewrite generated_app. rewrite Hasked. reflexivity.
Qed.

End GenerateAndSendMore.

(** ** The registry and its bookkeeping *)

Lemma content_type_of_skip old entries job :
  (forall entry, In entry old -> entry_job entry <> job_id job) ->
  ContentScheduler.content_type_of (old ++ entries) job
  = ContentScheduler.content_type_of entries job.
Proof.
  induction old as [|[[ct t] id] old IH]; intros H; [reflexivity|].
  cbn [Datatypes.app ContentScheduler.content_type_of].
  destruct (Nat.eqb_spec id (job_id job)) as [Heq|_].
  - exfalso. apply (H (ct, t, id)); [left; reflexivity | exact Heq].
  - apply IH. intros entry Hin. apply H. right. exact Hin.
Qed.

Lemma content_type_of_fresh :
  forall new_jobs new_entries first,
    map job_id new_jobs = seq first (List.length new_jobs) ->
    map entry_job new_entries = seq first (List.length new_jobs) ->
    map entry_content_type new_entries = map job_content_type new_jobs ->
    forall job, In job new_jobs ->
                ContentScheduler.content_type_of new_entries job
                = job_content_type job.
Proof.
  induction new_jobs as [|j js IH]; intros es first Hj He Hc job Hin;
    [contradiction|].
  destruct es as [|[[ct t] id] es]; [discriminate He|].
  cbn [map List.length seq entry_job entry_content_type fst snd] in Hj, He, Hc.
  injection Hj as Hj0 Hj. injection He as He0 He. injection Hc as Hc0 Hc.
  cbn [ContentScheduler.content_type_of].
  destruct Hin as [<-|Hin].
  - rewrite He0, Hj0, Nat.eqb_refl. exact Hc0.
  - assert (Hid : In (job_id job) (seq (S first) (List.length js)))
      by (rewrite <- Hj; apply in_map, Hin).
    apply in_seq in Hid.
    destruct (Nat.eqb_spec id (job_id job)) as [Heq|_]; [lia|].
    apply (IH es (S first)); assumption.
Qed.

Section Registry.

Variable parse_at : str -> Res Z.
Variable datetime_now : list Event -> Z.
Variable strftime : str -> Z -> str.

Let setup_schedule :=
  ContentScheduler.setup_schedule parse_at datetime_now strftime.
Let schedule_entry := ContentScheduler.schedule_entry parse_at datetime_now.

(** What the loop of [setup_schedule] adds to the registry and to
    [self.scheduled_jobs]. *)
Lemma schedule_entries_state times :
  forall w,
  exists w' new_jobs new_entries,
    for_each times schedule_entry w = (Ret tt, w')
    /\ jobs w' = jobs w ++ new_jobs
    /\ scheduled_jobs w' = scheduled_jobs w ++ new_entries
    /\ next_id w' = next_id w + List.length new_jobs
    /\ map job_id new_jobs = seq (next_id w) (List.length new_jobs)
    /\ map entry_job new_entries = seq (next_id w) (List.length new_jobs)
    /\ map entry_content_type new_entries = map job_content_type new_jobs
    /\ List.length new_jobs = List.length (well_formed parse_at times).
Proof.
  unfold schedule_entry.
  induction times as [|[ct t] times IH]; intros w.
  - exists w, [], []. cbn. rewrite !app_nil_r, Nat.add_0_r. repeat split.
  - cbn [for_each]. unfold bind.
    destruct (parse_at t) as [a|e] eqn:Hp.
      rewrite (@schedule_entry_parsed parse_at datetime_now ct t a w Hp).
      match goal with
      | |- context [for_each times _ ?W] =>
          destruct (IH W)
            as (w' & js & es & -> & Hj & Hs & Hn & Hij & Hie & Hc & Hl)
      end.
      cbn [trace jobs scheduled_jobs next_id] in Hj, Hs, Hn, Hij, Hie.
      eexists w', (_ :: js), (_ :: es).
      split; [reflexivity|].
      split; [rewrite Hj, <- app_assoc; reflexivity|].
      split; [rewrite Hs, <- app_assoc; reflexivity|].
      split; [rewrite Hn; cbn [List.length]; lia|].
      cbn [map List.length seq job_id entry_job entry_content_type
           job_content_type fst snd well_formed flat_map].
      rewrite Hp, Hij, Hie, Hc.
      cbn [Datatypes.app List.length]. fold (well_formed parse_at times).
      rewrite Hl. repeat split.
      rewrite (@schedule_entry_malformed parse_at datetime_now ct t e w Hp).
      match goal with
      | |- context [for_each times _ ?W] =>
          destruct (IH W)
            as (w' & js & es & -> & Hj & Hs & Hn & Hij & Hie & Hc & Hl)
      end.
      cbn [trace jobs scheduled_jobs next_id emit] in Hj, Hs, Hn, Hij, Hie.
      exists w', js, es.
      cbn [well_formed flat_map]. rewrite Hp. cbn [Datatypes.app].
      fold (well_formed parse_at times). repeat split; assumption.
Qed.

Lemma setup_schedule_state custom_times w :
  exists w' new_entries,
    setup_schedule custom_times w = (Ret tt, w')
    /\ scheduled_jobs w' = scheduled_jobs w ++ new_entries
    /\ next_id w' = next_id w + List.length (jobs w')
    /\ map job_id (jobs w') = seq (next_id w) (List.length (jobs w'))
    /\ map entry_job new_entries = seq (next_id w) (List.length (jobs w'))
    /\ map entry_content_type new_entries = map job_content_type (jobs w')
    /\ List.length (jobs w')
       = List.length (well_formed parse_at
                        (ContentScheduler.schedule_times custom_times)).
Proof.
  unfold setup_schedule, ContentScheduler.setup_schedule.
  cbv beta iota zeta delta [bind log ret emit Schedule.clear].
  cbn [trace jobs scheduled_jobs next_id].
  match goal with
  | |- context [for_each ?times _ ?W] =>
      destruct (schedule_entries_state times W)
        as (w1 & js & es & E & Hj & Hs & Hn & Hij & Hie & Hc & Hl)
  end.
  unfold schedule_entry in E. rewrite E.
  cbn [trace jobs scheduled_jobs next_id Datatypes.app] in Hj, Hs, Hn, Hij, Hie.
  match goal with
  | |- context [ContentScheduler._log_next_runs strftime ?W] =>
      destruct (log_next_runs_returns_quietly strftime W) as ([] & new2 & ->)
  end.
  cbn [trace jobs scheduled_jobs next_id].
  eexists _, es. split; [reflexivity|].
  cbn [trace jobs scheduled_jobs next_id]. rewrite Hj.
  repeat split; assumption.
Qed.

(** X10.  [setup_schedule] clears the job list but not
    [self.scheduled_jobs]: after it, [total_jobs] counts the entries whose
    time parses, while [scheduled_content_types] is what it was before
    plus that count; the two agree exactly when [self.scheduled_jobs] was
    empty before the call. *)
Theorem setup_schedule_accumulates_entries :
  forall custom_times w,
  exists w',
    setup_schedule custom_times w = (Ret tt, w')
    /\ ContentScheduler.total_jobs
         (ContentScheduler.get_schedule_status strftime w')
       = List.length (well_formed parse_at
                        (ContentScheduler.schedule_times custom_times))
    /\ ContentScheduler.scheduled_content_types
         (ContentScheduler.get_schedule_status strftime w')
       = List.length (scheduled_jobs w)
         + List.length (well_formed parse_at
                          (ContentScheduler.schedule_times custom_times))
    /\ (ContentScheduler.scheduled_content_types
          (ContentScheduler.get_schedule_status strftime w')
        = ContentScheduler.total_jobs
            (ContentScheduler.get_schedule_status strftime w')
        <-> scheduled_jobs w = []).
Proof.
  intros custom w.
  destruct (setup_schedule_state custom w)
    as (w' & es & E & Hs & Hn & Hij & Hie & Hc & Hl).
  assert (Hentries :
            ContentScheduler.scheduled_content_types
              (ContentScheduler.get_schedule_status strftime w')
            = List.length (scheduled_jobs w)
              + List.length (well_formed parse_at
                               (ContentScheduler.schedule_times custom))).
  { cbn [ContentScheduler.get_schedule_status
         ContentScheduler.scheduled_content_types].
    rewrite Hs, length_app, <- Hl.
    rewrite <- (length_map entry_job es), Hie, length_seq. reflexivity. }
  assert (Htotal :
            ContentScheduler.total_jobs
              (ContentScheduler.get_schedule_status strftime w')
            = List.length (well_formed parse_at
                             (ContentScheduler.schedule_times custom)))
    by exact Hl.
  exists w'. split; [exact E|]. split; [exact Htotal|]. split; [exact Hentries|].
  rewrite Hentries, Htotal. split.
  - intros Heq. destruct (scheduled_jobs w); [reflexivity|].
    cbn [List.length] in Heq. lia.
  - intros ->. reflexivity.
Qed.

(** X11.  [setup_schedule] keeps the bookkeeping consistent, also when
    called again: old entries of [self.scheduled_jobs] never shadow a new
    job, so [_log_next_runs] lists every run under its own content type
    and never under "unknown". *)
Theorem setup_schedule_keeps_consistent :
  forall custom_times w,
    consistent w ->
    exists w',
      setup_schedule custom_times w = (Ret tt, w')
      /\ consistent w'
      /\ ContentScheduler.upcoming w'
         = firstn 3
             (sort_by fst
                (map (fun job => (next_run job, job_content_type job))
                     (jobs w'))).
Proof.
  intros custom w (Hnd & Hbound & _).
  destruct (setup_schedule_state custom w)
    as (w' & es & E & Hs & Hn & Hij & Hie & Hc & Hl).
  assert (Hlabel : forall job, In job (jobs w') ->
                     ContentScheduler.content_type_of (scheduled_jobs w') job
                     = job_content_type job).
  { intros job Hin. rewrite Hs, content_type_of_skip.
    - eapply content_type_of_fresh; eauto.
    - intros entry Hentry Heq.
      assert (Hid : In (job_id job) (seq (next_id w) (List.length (jobs w'))))
        by (rewrite <- Hij; apply in_map, Hin).
      apply in_seq in Hid. apply Hbound in Hentry. lia. }
  exists w'. split; [exact E|]. split; [split; [|split]|].
  - rewrite Hs, map_app, Hie. apply NoDup_app.
    + exact Hnd.
    + apply seq_NoDup.
    + intros id Hold Hnew. apply in_seq in Hnew.
      apply in_map_iff in Hold as (entry & <- & Hentry).
      apply Hbound in Hentry. lia.
  - intros entry Hin. rewrite Hs in Hin. rewrite Hn.
    apply in_app_or in Hin as [Hin|Hin].
    + apply Hbound in Hin. lia.
    + assert (Hid : In (entry_job entry)
                       (seq (next_id w) (List.length (jobs w'))))
        by (rewrite <- Hie; apply in_map, Hin).
      apply in_seq in Hid. lia.
  - exact Hlabel.
  - unfold ContentScheduler.upcoming. do 2 f_equal.
    apply map_ext_in. intros job Hin. rewrite (Hlabel job Hin). reflexivity.
Qed.

End Registry.

(** ** Reading the registry *)

Lemma insert_by_ascending (x : Z * str) l :
  ascending l -> ascending (insert_by fst x l).
Proof.
  unfold ascending. induction l as [|y l IH]; intros Hs; cbn [insert_by].
  - repeat constructor.
  - destruct (Z.leb_spec (fst x) (fst y)) as [Hle|Hgt].
    + constructor; [exact Hs|]. constructor. exact Hle.
    + inversion Hs as [|? ? Hs' Hhd]; subst.
      constructor; [apply IH, Hs'|].
      destruct l as [|z l]; cbn [insert_by].
      * constructor. lia.
      * destruct (fst x <=? fst z)%Z; constructor;
          [lia | inversion Hhd; assumption].
Qed.

Lemma sort_by_ascending (l : list (Z * str)) : ascending (sort_by fst l).
Proof.
  induction l as [|x l IH]; [constructor|].
  unfold sort_by in *. cbn [fold_right]. apply insert_by_ascending, IH.
Qed.

Lemma firstn_ascending n (l : list (Z * str)) :
  ascending l -> ascending (firstn n l).
Proof.
  unfold ascending. revert l.
  induction n as [|n IH]; intros l Hs; [constructor|].
  destruct l as [|x l]; [constructor|].
  inversion Hs as [|? ? Hs' Hhd]; subst.
  cbn [firstn]. constructor; [apply IH, Hs'|].
  destruct n; [constructor|].
  destruct l; [constructor|]. cbn [firstn]. constructor.
  inversion Hhd; assumption.
Qed.

Lemma firstn_subset A n (l : list A) x : In x (firstn n l) -> In x l.
Proof.
  intros H. rewrite <- (firstn_skipn n l). apply in_or_app. left. exact H.
Qed.

Lemma sort_by_head_least (l : list (Z * str)) a rest :
  sort_by fst l = a :: rest -> forall b, In b l -> (fst a <= fst b)%Z.
Proof.
  intros Hsort b Hin.
  apply (sort_by_In fst) in Hin. rewrite Hsort in Hin.
  pose proof (sort_by_ascending l) as Hs. rewrite Hsort in Hs.
  apply Sorted_StronglySorted in Hs; [|intros x y z; cbn; lia].
  inversion Hs as [|? ? _ Hall]; subst.
  destruct Hin as [<-|Hin]; [lia|].
  rewrite Forall_forall in Hall. apply Hall, Hin.
Qed.

Lemma min_by_least A (key : A -> Z) xs :
  forall x,
    In (min_by key x xs) (x :: xs)
    /\ forall y, In y (x :: xs) -> (key (min_by key x xs) <= key y)%Z.
Proof.
  induction xs as [|z xs IH]; intros x; cbn [min_by].
  - split; [left; reflexivity|]. intros y [<-|[]]. lia.
  - destruct (IH (if (key z <? key x)%Z then z else x)) as [Hin Hle].
    split.
    + destruct Hin as [Heq|Hin]; [|right; right; exact Hin].
      rewrite <- Heq. destruct (key z <? key x)%Z; cbn; auto.
    + intros y Hy.
      assert (Hm : (key (min_by key (if (key z <? key x)%Z then z else x) xs)
                    <= key (if (key z <? key x)%Z then z else x))%Z)
        by (apply Hle; left; reflexivity).
      destruct Hy as [<-|[<-|Hy]].
      * destruct (Z.ltb_spec (key z) (key x)); lia.
      * destruct (Z.ltb_spec (key z) (key x)); lia.
      * apply Hle. right. exact Hy.
Qed.

(** X12.  The runs [_log_next_runs] lists are in ascending order of
    [next_run], three of them or as many as there are jobs, each the
    [next_run] of a registered job, and the first is the earliest of the
    whole registry. *)
Theorem upcoming_earliest_first :
  forall w,
    ascending (ContentScheduler.upcoming w)
    /\ List.length (ContentScheduler.upcoming w) = Nat.min 3 (List.length (jobs w))
    /\ (forall run, In run (ContentScheduler.upcoming w) ->
                    exists job, In job (jobs w) /\ fst run = next_run job)
    /\ (forall run rest,
           ContentScheduler.upcoming w = run :: rest ->
           forall job, In job (jobs w) -> (fst run <= next_run job)%Z).
Proof.
  intros w. unfold ContentScheduler.upcoming.
  set (info := map (fun job => (next_run job,
                                ContentScheduler.content_type_of
                                  (scheduled_jobs w) job)) (jobs w)).
  split; [apply firstn_ascending, sort_by_ascending|].
  split; [rewrite length_firstn, sort_by_length; unfold info;
          rewrite length_map; reflexivity|].
  split.
  - intros run Hin. apply firstn_subset, sort_by_In in Hin.
    unfold info in Hin. apply in_map_iff in Hin as (job & <- & Hjob).
    exists job. auto.
  - intros run rest Hup job Hjob.
    destruct (sort_by fst info) as [|a sorted] eqn:Hsort; [discriminate Hup|].
    cbn [firstn] in Hup. injection Hup as <- _.
    apply (sort_by_head_least _ Hsort
             (next_run job,
              ContentScheduler.content_type_of (scheduled_jobs w) job)).
    unfold info.
    apply (in_map (fun job => (next_run job,
                               ContentScheduler.content_type_of
                                 (scheduled_jobs w) job))).
    exact Hjob.
Qed.

(** X13.  [get_schedule_status] reports no [next_run] exactly when the
    registry is empty; otherwise it reports the formatted [next_run] of a
    registered job that no other job precedes. *)
Theorem get_schedule_status_earliest :
  forall (strftime : str -> Z -> str) w,
    (ContentScheduler.status_next_run
       (ContentScheduler.get_schedule_status strftime w) = None
     <-> jobs w = [])
    /\ (jobs w <> [] ->
        exists job,
          In job (jobs w)
          /\ ContentScheduler.status_next_run
               (ContentScheduler.get_schedule_status strftime w)
             = Some (strftime (lit "%Y-%m-%d %H:%M:%S") (next_run job))
          /\ forall other, In other (jobs w) ->
                           (next_run job <= next_run other)%Z).
Proof.
  intros strftime w.
  unfold ContentScheduler.get_schedule_status.
  cbn [ContentScheduler.status_next_run].
  destruct (jobs w) as [|job rest].
  - split; [split; reflexivity|]. intros H. contradiction.
  - split; [split; discriminate|]. intros _.
    destruct (min_by_least next_run rest job) as [Hin Hle].
    exists (min_by next_run job rest). auto.
Qed.

(** ** [CombinedBotHandler] *)

Lemma schedule_text_keys info info' :
  map fst info = map fst info' ->
  CombinedBotHandler.schedule_text info = CombinedBotHandler.schedule_text info'.
Proof.
  intros H. unfold CombinedBotHandler.schedule_text. rewrite H. reflexivity.
Qed.

Section Handler.

Variable lower : str -> str.
Variable bot_send_message : list Event -> str -> str -> Res unit.
Variable telegram_bot : TelegramBot.t.
Variable generate_content : list Event -> str -> Res (option str).
Variable parse_at : str -> Res Z.
Variable datetime_now : list Event -> Z.
Variable strftime : str -> Z -> str.
Variable handler_send_message : list Event -> str -> str -> Res unit.

Let run_pending_tasks :=
  ContentScheduler.run_pending_tasks lower bot_send_message telegram_bot
    generate_content datetime_now strftime.
Let scheduler_round :=
  CombinedBotHandler.scheduler_round lower bot_send_message telegram_bot
    generate_content datetime_now strftime.
Let start_scheduler :=
  CombinedBotHandler.start_scheduler lower bot_send_message telegram_bot
    generate_content parse_at datetime_now strftime.
Let show_schedule :=
  CombinedBotHandler.show_schedule strftime handler_send_message.

Lemma run_pending_tasks_returns :
  forall w, exists w', run_pending_tasks w = (Ret tt, w').
Proof.
  intros w. unfold run_pending_tasks, ContentScheduler.run_pending_tasks,
    try_except.
  match goal with
  | |- context [match ?m with _ => _ end] => destruct m as [[[]|e] w1]
  end.
  - exists w1. reflexivity.
  - eexists. reflexivity.
Qed.

Lemma scheduler_round_sleeps :
  forall w,
  exists w1,
    run_pending_tasks w = (Ret tt, w1)
    /\ scheduler_round w = (Ret tt, emit (Sleep 30) w1).
Proof.
  intros w. destruct (run_pending_tasks_returns w) as (w1 & E).
  exists w1. split; [exact E|].
  unfold scheduler_round, CombinedBotHandler.scheduler_round, try_except.
  unfold bind at 1. unfold run_pending_tasks in E. rewrite E. reflexivity.
Qed.

(** X14.  [run_pending_tasks] swallows every exception of the tick, so a
    round of [start_scheduler] is always the pending tasks followed by the
    30 s sleep: its own handler with the 60 s sleep is never taken, and no
    number of rounds makes [start_scheduler] raise. *)
Theorem scheduler_round_never_backs_off :
  (forall w,
   exists w1,
     run_pending_tasks w = (Ret tt, w1)
     /\ scheduler_round w = (Ret tt, emit (Sleep 30) w1))
  /\ (forall rounds w, exists w', start_scheduler rounds w = (Ret tt, w')).
Proof.
  split; [exact scheduler_round_sleeps|].
  intros rounds w.
  unfold start_scheduler, CombinedBotHandler.start_scheduler.
  unfold bind at 1. unfold log at 1. unfold bind at 1.
  match goal with
  | |- context [ContentScheduler.setup_schedule _ _ _ ?c ?W] =>
      destruct (setup_schedule_runs parse_at datetime_now strftime c W)
        as (new & w1 & -> & _)
  end.
  revert w1.
  induction rounds as [|rounds IH]; intros w0.
  - exists w0. reflexivity.
  - cbn [CombinedBotHandler.scheduler_rounds]. unfold bind at 1.
    destruct (scheduler_round_sleeps w0) as (w2 & _ & E).
    unfold scheduler_round in E. rewrite E. apply IH.
Qed.

(** X15.  [show_schedule] iterates over the status dictionary, that is,
    over its keys: the one message it sends is the same text whatever the
    registry holds, listing "total_jobs", "scheduled_content_types" and
    "next_run" and none of their values.  What the send raises escapes. *)
Theorem show_schedule_ignores_status :
  forall chat_id w,
  let text :=
    CombinedBotHandler.schedule_text
      [ (lit "total_jobs", ContentScheduler.NoneValue);
        (lit "scheduled_content_types", ContentScheduler.NoneValue);
        (lit "next_run", ContentScheduler.NoneValue) ] in
  show_schedule chat_id w
  = (handler_send_message (trace w) chat_id text, emit (ApiSend chat_id text) w)
  /\ contains (lit "• total_jobs" ++ nl ++ lit "• scheduled_content_types" ++ nl
                 ++ lit "• next_run" ++ nl) text = true.
Proof.
  intros chat_id w text. split.
  - unfold show_schedule, CombinedBotHandler.show_schedule,
      CombinedBotHandler.reply.
    rewrite (@schedule_text_keys
               (ContentScheduler.as_dict
                  (ContentScheduler.get_schedule_status strftime w))
               [ (lit "total_jobs", ContentScheduler.NoneValue);
                 (lit "scheduled_content_types", ContentScheduler.NoneValue);
                 (lit "next_run", ContentScheduler.NoneValue) ]
               eq_refl).
    reflexivity.
  - vm_compute. reflexivity.
Qed.

End Handler.

(** ** The supervisor, further *)

Section SupervisorMore.

Variable lower : str -> str.
Variable bot_send_message : list Event -> str -> str -> Res unit.
Variable bot_get_me : list Event -> Res str.
Variable bot_get_chat : list Event -> str -> Res (option str).
Variable telegram_bot : TelegramBot.t.
Variable config_validate : list Event -> Res bool.
Variable generator_test_connection : list Event -> Res bool.
Variable start_scheduler : list Event -> IslamicTelegramBot.Outcome.

Let startup :=
  IslamicTelegramBot.startup lower bot_send_message bot_get_me bot_get_chat
    telegram_bot config_validate generator_test_connection.
Let start_round :=
  IslamicTelegramBot.start_round lower bot_send_message bot_get_me
    bot_get_chat telegram_bot config_validate generator_test_connection
    start_scheduler.
Let start :=
  IslamicTelegramBot.start lower bot_send_message bot_get_me
    bot_get_chat telegram_bot config_validate generator_test_connection
    start_scheduler.

(** X16.  When [config.validate()] returns [False] or raises, the round
    of [start] logs an error, sleeps 30 s and ends: nothing is sent, no
    connection is tested and no scheduler is started. *)
Theorem start_round_validation_fails :
  forall w,
    config_validate
      (trace w ++ [Log INFO (lit "🤖 Starting Enhanced Islamic Telegram Bot...")])
    <> Ret true ->
    exists msg,
      start_round w
      = (Ret IslamicTelegramBot.Again,
         mkWorld
           (trace w
              ++ [Log INFO (lit "🤖 Starting Enhanced Islamic Telegram Bot...");
                  Call (lit "config.validate");
                  Log ERROR msg;
                  Sleep 30])
           (jobs w) (scheduled_jobs w) (next_id w)).
Proof.
  intros w Hbad.
  unfold start_round, IslamicTelegramBot.start_round, try_except.
  unfold bind at 1. unfold IslamicTelegramBot.startup.
  unfold bind at 1. unfold log at 1. unfold bind at 1.
  unfold IslamicTelegramBot.call at 1.
  cbn [emit trace jobs scheduled_jobs next_id].
  destruct (config_validate _) as [[|]|e].
  - contradiction Hbad. reflexivity.
  - cbn [negb]. cbv beta iota zeta delta [bind log sleep ret emit].
    cbn [trace jobs scheduled_jobs next_id].
    eexists. repeat rewrite <- app_assoc. reflexivity.
  - cbv beta iota zeta delta [bind log sleep ret emit].
    cbn [trace jobs scheduled_jobs next_id].
    eexists. repeat rewrite <- app_assoc. reflexivity.
Qed.

(** X17.  No number of rounds makes [start] raise: whatever the
    collaborators return or raise, every round ends in the loop or inside
    the call that never returns. *)
Theorem start_never_raises :
  forall rounds w, exists flow w', start rounds w = (Ret flow, w').
Proof.
  induction rounds as [|rounds IH]; intros w.
  - exists IslamicTelegramBot.Again, w. reflexivity.
  - unfold start. cbn [IslamicTelegramBot.start]. unfold bind at 1.
    destruct (start_round_never_raises lower bot_send_message bot_get_me
                bot_get_chat telegram_bot config_validate
                generator_test_connection start_scheduler w) as (flow & Hf).
    match goal with
    | |- context [match ?m with _ => _ end] =>
        destruct m as [r w1] eqn:E
    end.
    cbn [fst] in Hf. subst r. destruct flow.
    + apply IH.
    + exists IslamicTelegramBot.Blocked, w1. reflexivity.
Qed.

(** X18.  When a round of [start] has come through the start-up and the
    foreground call [start_scheduler] raises, the round logs the error,
    sleeps 30 s (not 10) and ends without leaving the [while True]. *)
Theorem start_round_scheduler_raises :
  forall w w1 e,
    startup w = (Ret true, w1) ->
    start_scheduler (trace w1) = IslamicTelegramBot.Raises e ->
    start_round w
    = (Ret IslamicTelegramBot.Again,
       emit (Sleep 30)
         (emit (Log ERROR (lit "❌ Error in main bot loop: " ++ exn_str e
                           ++ lit " - restarting in 30 seconds..."))
            (emit (Call (lit "bot_handler.start_scheduler")) w1))).
Proof.
  intros w w1 e Hup Hraise.
  unfold start_round, IslamicTelegramBot.start_round, try_except.
  unfold bind at 1. unfold startup in Hup. rewrite Hup.
  unfold bind at 1. unfold IslamicTelegramBot.run_scheduler.
  rewrite Hraise. reflexivity.
Qed.

End SupervisorMore.

(** ** Further instances *)

Lemma send_message_transient_failures_witness :
  exists new w',
    TelegramBot.send_message ascii_lower SampleMore.timing_out Sample.bot
      (lit "hi") 0 Sample.world0 = (Ret false, w')
    /\ extends Sample.world0 w' new
    /\ actions new = try_sleep_try (lit "@channel") (lit "hi") 60 3
    /\ List.length (sent_texts new) = 4
    /\ sleeps new = [60; 60; 60].
Proof.
  apply (@send_message_transient_failures ascii_lower SampleMore.timing_out
           Sample.bot).
  intros h c t. eexists. split; [reflexivity|]. left. vm_compute. reflexivity.
Defined.

Lemma send_message_unexpected_error_witness :
  exists new w',
    TelegramBot.send_message ascii_lower SampleMore.broken Sample.bot
      (lit "hi") 0 Sample.world0 = (Ret false, w')
    /\ extends Sample.world0 w' new
    /\ actions new = [ApiSend (lit "@channel") (lit "hi")]
    /\ In (Log ERROR (lit "❌ Unexpected error while sending message: "
                      ++ lit "Connection reset by peer")) new.
Proof.
  apply (@send_message_unexpected_error ascii_lower SampleMore.broken Sample.bot
           (lit "hi") 0 Sample.world0 (lit "Connection reset by peer")).
  intros h. reflexivity.
Defined.

Lemma send_message_recovers_witness :
  exists new w',
    TelegramBot.send_message ascii_lower SampleMore.flaky Sample.bot
      (lit "hi") 0 Sample.world0 = (Ret true, w')
    /\ extends Sample.world0 w' new
    /\ actions new = try_sleep_try (lit "@channel") (lit "hi") 60 2.
Proof.
  apply (@send_message_recovers ascii_lower SampleMore.flaky Sample.bot
           (lit "Read timed out. (read timeout=25)") 2 (lit "hi") Sample.world0).
  - left. vm_compute. reflexivity.
  - intros h c t. reflexivity.
  - cbn. lia.
Defined.

Lemma test_connection_result_witness :
  exists new,
    TelegramBot.test_connection ascii_lower Sample.get_me Sample.get_chat
      Sample.bot Sample.world0
    = (Ret true, mkWorld (trace Sample.world0 ++ new) [] [] 0).
Proof.
  destruct (test_connection_result ascii_lower Sample.get_me Sample.get_chat
              Sample.bot Sample.world0) as (b & new & E & [_ Hiff] & _).
  assert (Hb : b = true).
  { apply Hiff. exists (lit "islam_bot"), (Some (lit "Channel")).
    split; reflexivity. }
  subst b. exists new. exact E.
Defined.

Lemma get_bot_info_raises_witness :
  fst (TelegramBot.get_bot_info SampleMore.get_me_broken Sample.world0)
  = Raise (Exception (lit "Connection reset by peer")).
Proof.
  apply (get_bot_info_raises SampleMore.get_me_broken Sample.world0).
  reflexivity.
Defined.

Lemma generate_and_send_content_effects_witness :
  exists new,
    ContentScheduler._generate_and_send_content ascii_lower Sample.delivering
      Sample.bot SampleMore.silent Sample.clock Sample.strftime
      (lit "daily_dua") Sample.world0
    = (Ret tt, mkWorld (trace Sample.world0 ++ new) [] [] 0)
    /\ generated new = [lit "daily_dua"]
    /\ sent_texts new = [].
Proof.
  destruct (generate_and_send_content_effects ascii_lower Sample.delivering
              Sample.bot SampleMore.silent Sample.clock Sample.strftime
              (lit "daily_dua") Sample.world0) as (new & E & G & [_ Hnone] & _).
  exists new. split; [exact E|]. split; [exact G|]. apply Hnone. reflexivity.
Defined.

Lemma test_all_content_types_effects_witness :
  (exists new,
      ContentScheduler.test_all_content_types Sample.generating Sample.world0
      = (Ret tt, mkWorld (trace Sample.world0 ++ new) [] [] 0)
      /\ sent_texts new = []
      /\ generated new = map fst ContentScheduler.default_schedule)
  /\ (exists new,
        ContentScheduler.test_all_content_types SampleMore.failing_on_hadith
          Sample.world0
        = (Raise (Exception (lit "API quota exceeded")),
           mkWorld (trace Sample.world0 ++ new) [] [] 0)
        /\ sent_texts new = []
        /\ generated new
           = [lit "morning_azkar"; lit "quran_verse"; lit "daily_hadith"]).
Proof.
  split.
  - destruct (test_all_content_types_effects Sample.generating Sample.world0)
      as (r & new & n & E & Hs & _ & _ & Hok & _).
    destruct Hok as [-> Hg]; [intros h ct; eexists; reflexivity|].
    exists new. auto.
  - destruct (test_all_content_types_effects SampleMore.failing_on_hadith
                Sample.world0)
      as (r & new & n & E & Hs & _ & _ & _ & Hstop).
    destruct (Hstop [lit "morning_azkar"; lit "quran_verse"]
                (lit "daily_hadith")
                [lit "religious_post"; lit "daily_reminder";
                 lit "companion_story"; lit "daily_dua"; lit "evening_azkar"]
                (Exception (lit "API quota exceeded")))
      as [-> Hg].
    + reflexivity.
    + intros h ct [<-|[<-|[]]]; eexists; reflexivity.
    + intros h. reflexivity.
    + exists new. auto.
Defined.

Lemma setup_schedule_accumulates_entries_witness :
  exists w',
    ContentScheduler.setup_schedule Sample.parse_hhmm Sample.clock Sample.strftime
      (Some Sample.custom) SampleMore.scheduled = (Ret tt, w')
    /\ ContentScheduler.total_jobs
         (ContentScheduler.get_schedule_status Sample.strftime w') = 1
    /\ ContentScheduler.scheduled_content_types
         (ContentScheduler.get_schedule_status Sample.strftime w') = 2.
Proof.
  destruct (setup_schedule_accumulates_entries Sample.parse_hhmm Sample.clock
              Sample.strftime (Some Sample.custom) SampleMore.scheduled)
    as (w' & E & Ht & Hs & _).
  exists w'. split; [exact E|]. split.
  - rewrite Ht. vm_compute. reflexivity.
  - rewrite Hs. vm_compute. reflexivity.
Defined.

Lemma world0_consistent : consistent Sample.world0.
Proof.
  split; [constructor|]. split; intros ? [].
Defined.

Lemma setup_schedule_keeps_consistent_witness :
  exists w',
    ContentScheduler.setup_schedule Sample.parse_hhmm Sample.clock Sample.strftime
      None Sample.world0 = (Ret tt, w')
    /\ consistent w'.
Proof.
  destruct (@setup_schedule_keeps_consistent Sample.parse_hhmm Sample.clock
              Sample.strftime None Sample.world0 world0_consistent)
    as (w' & E & C & _).
  exists w'. auto.
Defined.

Lemma upcoming_earliest_first_witness :
  exists job,
    In job (jobs SampleMore.scheduled) /\ 41400%Z = next_run job.
Proof.
  destruct (upcoming_earliest_first SampleMore.scheduled) as (_ & _ & Hfrom & _).
  apply (Hfrom (41400%Z, lit "friday_sermon")).
  left. vm_compute. reflexivity.
Defined.

Lemma get_schedule_status_earliest_witness :
  exists job,
    In job (jobs SampleMore.scheduled)
    /\ ContentScheduler.status_next_run
         (ContentScheduler.get_schedule_status Sample.strftime SampleMore.scheduled)
       = Some (Sample.strftime (lit "%Y-%m-%d %H:%M:%S") (next_run job))
    /\ forall other, In other (jobs SampleMore.scheduled) ->
                     (next_run job <= next_run other)%Z.
Proof.
  apply (get_schedule_status_earliest Sample.strftime SampleMore.scheduled).
  vm_compute. discriminate.
Defined.

Lemma start_round_validation_fails_witness :
  exists msg,
    IslamicTelegramBot.start_round ascii_lower Sample.delivering Sample.get_me
      Sample.get_chat Sample.bot SampleMore.invalid Sample.valid Sample.returning
      Sample.world0
    = (Ret IslamicTelegramBot.Again,
       mkWorld
         (trace Sample.world0
            ++ [Log INFO (lit "🤖 Starting Enhanced Islamic Telegram Bot...");
                Call (lit "config.validate");
                Log ERROR msg;
                Sleep 30])
         [] [] 0).
Proof.
  apply (@start_round_validation_fails ascii_lower Sample.delivering
           Sample.get_me Sample.get_chat Sample.bot SampleMore.invalid
           Sample.valid Sample.returning Sample.world0).
  discriminate.
Defined.

Lemma start_round_scheduler_raises_witness :
  let w1 := snd (IslamicTelegramBot.startup ascii_lower Sample.delivering
                   Sample.get_me Sample.get_chat Sample.bot Sample.valid
                   Sample.valid Sample.world0) in
  IslamicTelegramBot.start_round ascii_lower Sample.delivering Sample.get_me
    Sample.get_chat Sample.bot Sample.valid Sample.valid SampleMore.raising
    Sample.world0
  = (Ret IslamicTelegramBot.Again,
     emit (Sleep 30)
       (emit (Log ERROR (lit "❌ Error in main bot loop: "
                         ++ exn_str (Exception (lit "boom"))
                         ++ lit " - restarting in 30 seconds..."))
          (emit (Call (lit "bot_handler.start_scheduler")) w1))).
Proof.
  cbv zeta.
  apply (@start_round_scheduler_raises ascii_lower Sample.delivering
           Sample.get_me Sample.get_chat Sample.bot Sample.valid Sample.valid
           SampleMore.raising Sample.world0).
  - vm_compute. reflexivity.
  - reflexivity.
Defined.
